(** * Auto-SelfControl: the scheduling core of [auto-selfcontrol.py]

    A shallow embedding of the functions that decide whether a block
    schedule is active ([is_schedule_active]), select the schedule to start
    ([run]), compute the end date handed to SelfControl
    ([get_end_date_of_schedule]) and expand the schedules into launchd
    calendar intervals ([get_launchscript_startintervals]), together with the
    slice of Python's [datetime], [time], [str] and [float] they rely on,
    and of the functions around them: the check of the configuration
    ([check_config]), the question whether SelfControl is running
    ([check_if_running]) and the writing of the blocklist
    ([update_blocklist]). *)

From Stdlib Require Import ZArith List String Ascii Bool Lia Sorted Finite.
From Stdlib Require Import DecimalPos DecimalZ.
From Stdlib Require Import PrimFloat FloatOps SpecFloat Uint63 DecimalString.
Import ListNotations.
Local Open Scope Z_scope.

(** ** Exceptions and results *)

Inductive exn : Type :=
| ValueError
| OverflowError.

Inductive result (A : Type) : Type :=
| Ok (a : A)
| Raise (e : exn).
Arguments Ok {A} a.
Arguments Raise {A} e.

Definition result_bind {A B} (r : result A) (k : A -> result B) : result B :=
  match r with
  | Ok a => k a
  | Raise e => Raise e
  end.

(** ** The part of Python's [datetime] module the script uses *)

Module PyDatetime.

Record datetime : Type := mk_datetime {
  year : Z;
  month : Z;
  day : Z;
  hour : Z;
  minute : Z;
  second : Z;
  microsecond : Z
}.

Record timedelta : Type := mk_timedelta {
  days : Z;
  seconds : Z;
  microseconds : Z
}.

Definition MINYEAR : Z := 1.
Definition MAXYEAR : Z := 9999.

(** [year % 4 == 0 and (year % 100 != 0 or year % 400 == 0)] *)
Definition _is_leap (y : Z) : bool :=
  (y mod 4 =? 0) && (negb (y mod 100 =? 0) || (y mod 400 =? 0)).

Definition _DAYS_IN_MONTH : list Z :=
  [-1; 31; 28; 31; 30; 31; 30; 31; 31; 30; 31; 30; 31].

Definition _DAYS_BEFORE_MONTH : list Z :=
  [-1; 0; 31; 59; 90; 120; 151; 181; 212; 243; 273; 304; 334].

Definition _days_before_year (y : Z) : Z :=
  let y' := y - 1 in
  y' * 365 + y' / 4 - y' / 100 + y' / 400.

Definition _days_in_month (y m : Z) : Z :=
  if (m =? 2) && _is_leap y then 29
  else nth (Z.to_nat m) _DAYS_IN_MONTH 0.

Definition _days_before_month (y m : Z) : Z :=
  nth (Z.to_nat m) _DAYS_BEFORE_MONTH 0
  + (if (2 <? m) && _is_leap y then 1 else 0).

Definition _ymd2ord (y m d : Z) : Z :=
  _days_before_year y + _days_before_month y m + d.

Definition toordinal (t : datetime) : Z :=
  _ymd2ord (year t) (month t) (day t).

(** [return self.toordinal() % 7 or 7]: Monday is 1 and Sunday is 7. *)
Definition isoweekday (t : datetime) : Z :=
  let r := toordinal t mod 7 in
  if r =? 0 then 7 else r.

Definition _check_date_fields (y m d : Z) : bool :=
  (MINYEAR <=? y) && (y <=? MAXYEAR)
  && (1 <=? m) && (m <=? 12)
  && (1 <=? d) && (d <=? _days_in_month y m).

Definition _check_time_fields (h mi s us : Z) : bool :=
  (0 <=? h) && (h <=? 23)
  && (0 <=? mi) && (mi <=? 59)
  && (0 <=? s) && (s <=? 59)
  && (0 <=? us) && (us <=? 999999).

(** A value the class can hold: what [datetime.today()] returns. *)
Definition valid_datetime (t : datetime) : bool :=
  _check_date_fields (year t) (month t) (day t)
  && _check_time_fields (hour t) (minute t) (second t) (microsecond t).

(** The constructor takes its arguments as C ints. *)
Definition fits_c_int (z : Z) : bool :=
  (-2147483648 <=? z) && (z <=? 2147483647).

(** The constructor call [datetime(year, month, day, hour, minute)]; seconds
    and microseconds default to zero. An argument that does not fit a C int
    raises [OverflowError] when the arguments are converted; after that a
    field out of range raises [ValueError]. *)
Definition datetime_new (y m d h mi : Z) : result datetime :=
  if fits_c_int y && fits_c_int m && fits_c_int d
     && fits_c_int h && fits_c_int mi
  then
    if _check_date_fields y m d && _check_time_fields h mi 0 0
    then Ok (mk_datetime y m d h mi 0 0)
    else Raise ValueError
  else Raise OverflowError.

(** Comparison of naive datetimes: the tuples
    (year, month, day, hour, minute, second, microsecond) in lexicographic
    order. *)
Fixpoint _cmp (a b : list Z) : comparison :=
  match a, b with
  | [], [] => Eq
  | [], _ :: _ => Lt
  | _ :: _, [] => Gt
  | x :: a', y :: b' =>
      match x ?= y with
      | Eq => _cmp a' b'
      | c => c
      end
  end.

Definition fields (t : datetime) : list Z :=
  [year t; month t; day t; hour t; minute t; second t; microsecond t].

Definition dt_le (a b : datetime) : bool :=
  match _cmp (fields a) (fields b) with Gt => false | _ => true end.

Definition dt_ge (a b : datetime) : bool :=
  match _cmp (fields a) (fields b) with Lt => false | _ => true end.

(** [timedelta(days, seconds, microseconds)] on integers: the carries are
    folded so that 0 <= microseconds < 10**6 and 0 <= seconds < 86400. *)
Definition timedelta_new (d s us : Z) : timedelta :=
  let s' := s + us / 1000000 in
  mk_timedelta (d + s' / 86400) (s' mod 86400) (us mod 1000000).

(** [self - other] for two naive datetimes. *)
Definition dt_sub (a b : datetime) : timedelta :=
  let secs1 := second a + minute a * 60 + hour a * 3600 in
  let secs2 := second b + minute b * 60 + hour b * 3600 in
  timedelta_new (toordinal a - toordinal b) (secs1 - secs2)
                (microsecond a - microsecond b).

End PyDatetime.
Import PyDatetime.

(** ** Python [float] and [str] operations used for the UTC offset *)

Module PyNum.

(** An integer to the nearest double; exact below 2**53. *)
Definition float_of_Z (z : Z) : float :=
  if z <? 0 then PrimFloat.opp (PrimFloat.of_uint63 (Uint63.of_Z (- z)))
  else PrimFloat.of_uint63 (Uint63.of_Z z).

(** [int(x)] on a float: truncation toward zero; infinities raise
    [OverflowError] and NaN raises [ValueError]. *)
Definition int_of_float (x : float) : result Z :=
  match Prim2SF x with
  | S754_zero _ => Ok 0
  | S754_infinity _ => Raise OverflowError
  | S754_nan => Raise ValueError
  | S754_finite s m e =>
      let v := if 0 <=? e then Z.shiftl (Z.pos m) e
               else Z.shiftr (Z.pos m) (- e) in
      Ok (if s then - v else v)
  end.

(** [str(n)] on an integer. *)
Definition str_int (z : Z) : string :=
  NilZero.string_of_int (Z.to_int z).

Fixpoint zeros (n : nat) : string :=
  match n with
  | O => EmptyString
  | S n' => String "0" (zeros n')
  end.

(** [s.zfill(width)]: zeros are inserted after a leading sign. *)
Definition zfill (width : nat) (s : string) : string :=
  let pad := zeros (width - String.length s) in
  match s with
  | String c rest =>
      if (Ascii.eqb c "+" || Ascii.eqb c "-")%bool
      then String c (pad ++ rest)
      else (pad ++ s)%string
  | EmptyString => pad
  end.

End PyNum.
Import PyNum.

(** ** [strftime] *)

Module PyStrftime.

Definition directive (t : datetime) (c : ascii) : string :=
  if Ascii.eqb c "Y" then zfill 4 (str_int (year t))
  else if Ascii.eqb c "m" then zfill 2 (str_int (month t))
  else if Ascii.eqb c "d" then zfill 2 (str_int (day t))
  else if Ascii.eqb c "H" then zfill 2 (str_int (hour t))
  else if Ascii.eqb c "M" then zfill 2 (str_int (minute t))
  else if Ascii.eqb c "S" then zfill 2 (str_int (second t))
  else String "%" (String c EmptyString).

(** [t.strftime(fmt)] for the directives above; every other character is
    copied. *)
Fixpoint strftime (t : datetime) (fmt : string) : string :=
  match fmt with
  | EmptyString => EmptyString
  | String c rest =>
      match rest with
      | String c' rest' =>
          if Ascii.eqb c "%" then (directive t c' ++ strftime t rest')%string
          else String c (strftime t rest)
      | EmptyString => String c EmptyString
      end
  end.

End PyStrftime.
Import PyStrftime.

(** ** The system clock

    The script never receives the time as an argument: it asks the system.
    A [Clock] answers the successive readings of one process run;
    [today_at c n] is the local civil time returned by the [n]-th reading
    and [utc_offset_at c n] the whole number of seconds by which local time
    is ahead of UTC at that reading. Computations thread the number of
    readings made so far and may raise. *)

Record Clock : Type := mk_clock {
  today_at : nat -> datetime;
  utc_offset_at : nat -> Z
}.

Definition M (A : Type) : Type := Clock -> nat -> result A * nat.

Definition ret {A} (a : A) : M A := fun _ n => (Ok a, n).

Definition bind {A B} (m : M A) (k : A -> M B) : M B :=
  fun clk n =>
    match m clk n with
    | (Ok a, n') => k a clk n'
    | (Raise e, n') => (Raise e, n')
    end.

Definition lift {A} (r : result A) : M A := fun _ n => (r, n).

Notation "x <- m ;; k" := (bind m (fun x => k))
  (at level 61, m at next level, right associativity).

(** [datetime.today()] *)
Definition datetime_today : M datetime :=
  fun clk n => (Ok (today_at clk n), S n).

(** [time.time()]: the timestamp is named by the index of its reading. *)
Definition time_time : M nat :=
  fun clk n => (Ok n, S n).

(** [datetime.fromtimestamp(ts) - datetime.utcfromtimestamp(ts)]: both
    sides carry the same fraction of a second, so the difference is the
    local offset in whole seconds. *)
Definition local_minus_utc (ts : nat) : M timedelta :=
  fun clk n => (Ok (timedelta_new 0 (utc_offset_at clk ts) 0), n).

(** [a / b] on integers; correctly rounded when both are below 2**53. *)
Definition int_truediv (a b : Z) : float :=
  PrimFloat.div (float_of_Z a) (float_of_Z b).

(** [td.total_seconds()] *)
Definition total_seconds (td : timedelta) : float :=
  int_truediv ((days td * 86400 + seconds td) * 10 ^ 6 + microseconds td)
              (10 ^ 6).

(** ** Schedules *)

(** One entry of [config["block-schedules"]]; [weekday] is [None] when the
    key is absent or null. *)
Record Schedule : Type := mk_schedule {
  start_hour : Z;
  start_minute : Z;
  end_hour : Z;
  end_minute : Z;
  weekday : option Z;
  block_as_whitelist : bool
}.

(** The ranges of the data model: hours in [0,23], minutes in [0,59], and
    a weekday, when given, in [1,7]. *)
Definition valid_times (s : Schedule) : bool :=
  (0 <=? start_hour s) && (start_hour s <=? 23)
  && (0 <=? start_minute s) && (start_minute s <=? 59)
  && (0 <=? end_hour s) && (end_hour s <=? 23)
  && (0 <=? end_minute s) && (end_minute s <=? 59).

Definition valid_weekday (s : Schedule) : bool :=
  match weekday s with
  | None => true
  | Some w => (1 <=? w) && (w <=? 7)
  end.

Definition valid_schedule (s : Schedule) : bool :=
  valid_times s && valid_weekday s.

(** The window crosses midnight: read on one day, the end comes before the
    start. *)
Definition crosses_midnight (s : Schedule) : bool :=
  end_hour s * 60 + end_minute s <? start_hour s * 60 + start_minute s.

Definition set_weekday (s : Schedule) (w : option Z) : Schedule :=
  mk_schedule (start_hour s) (start_minute s) (end_hour s) (end_minute s)
              w (block_as_whitelist s).

(** ** The script's functions *)

(** [[schedule["weekday"]] if schedule.get("weekday", None) is not None
     else range(1, 8)] *)
Definition get_schedule_weekdays (schedule : Schedule) : list Z :=
  match weekday schedule with
  | Some w => [w]
  | None => [1; 2; 3; 4; 5; 6; 7]
  end.

(** [currenttime.isoweekday() % 7 - weekday % 7] *)
Definition weekday_diff (currenttime : datetime) (wd : Z) : Z :=
  isoweekday currenttime mod 7 - wd mod 7.

(** The body of the [for weekday in ...] loop: the value of [result]. *)
Definition weekday_result (currenttime starttime endtime : datetime)
    (d : timedelta) (wd : Z) : bool :=
  if weekday_diff currenttime wd =? 0 then
    if days d =? 0
    then dt_le starttime currenttime && dt_ge endtime currenttime
    else dt_le starttime currenttime
  else if (weekday_diff currenttime wd =? 1)
          || (weekday_diff currenttime wd =? -6) then
    negb (days d =? 0) && dt_le currenttime endtime
  else false.

Fixpoint weekday_loop (currenttime starttime endtime : datetime)
    (d : timedelta) (weekdays : list Z) : bool :=
  match weekdays with
  | [] => false
  | wd :: rest =>
      let result := weekday_result currenttime starttime endtime d wd in
      if result then result
      else weekday_loop currenttime starttime endtime d rest
  end.

(** [is_schedule_active] after its first line, with [currenttime] bound. *)
Definition is_schedule_active_at (currenttime : datetime)
    (schedule : Schedule) : result bool :=
  result_bind
    (datetime_new (year currenttime) (month currenttime) (day currenttime)
                  (start_hour schedule) (start_minute schedule))
    (fun starttime =>
  result_bind
    (datetime_new (year currenttime) (month currenttime) (day currenttime)
                  (end_hour schedule) (end_minute schedule))
    (fun endtime =>
  let d := dt_sub endtime starttime in
  Ok (weekday_loop currenttime starttime endtime d
        (get_schedule_weekdays schedule)))).

Definition is_schedule_active (schedule : Schedule) : M bool :=
  currenttime <- datetime_today ;;
  lift (is_schedule_active_at currenttime schedule).

(** The pieces of [get_end_date_of_schedule] computed from the offset. *)
Definition utc_offset_of (delta : timedelta) : float :=
  PrimFloat.div (total_seconds delta) 3600.

Definition offset_digits (utc_offset : float) : result string :=
  result_bind (int_of_float (PrimFloat.abs (PrimFloat.mul utc_offset 100)))
    (fun n => Ok (zfill 4 (str_int n))).

Definition offset_sign (utc_offset : float) : string :=
  if PrimFloat.leb 0 utc_offset then "+"%string else "-"%string.

Definition get_end_date_of_schedule (schedule : Schedule) : M string :=
  currenttime <- datetime_today ;;
  endtime <- lift (datetime_new (year currenttime) (month currenttime)
                     (day currenttime) (end_hour schedule)
                     (end_minute schedule)) ;;
  ts <- time_time ;;
  delta <- local_minus_utc ts ;;
  let utc_offset := utc_offset_of delta in
  offset <- lift (offset_digits utc_offset) ;;
  let sign := offset_sign utc_offset in
  ret (strftime endtime ("%Y-%m-%dT%H:%M:%S" ++ sign ++ offset)%string).

(** [next(s for s in config["block-schedules"] if is_schedule_active(s))];
    [None] stands for [StopIteration]. *)
Fixpoint next_active (schedules : list Schedule) : M (option Schedule) :=
  match schedules with
  | [] => ret None
  | s :: rest =>
      b <- is_schedule_active s ;;
      if b then ret (Some s) else next_active rest
  end.

(** How [run] ends once SelfControl is known not to be running: [exit(0)]
    when no schedule is active, otherwise SelfControl is started for the
    selected schedule until [block_end_date]. *)
Inductive outcome : Type :=
| Exit (code : Z)
| StartSelfControl (schedule : Schedule) (block_end_date : string).

Definition run (block_schedules : list Schedule) : M outcome :=
  found <- next_active block_schedules ;;
  match found with
  | None => ret (Exit 0)
  | Some schedule =>
      block_end_date <- get_end_date_of_schedule schedule ;;
      ret (StartSelfControl schedule block_end_date)
  end.

(** The [<dict>] entry yielded for one weekday of one schedule. *)
Definition nl : string := String "010"%char EmptyString.

Definition startinterval_entry (wd startminute starthour : Z) : string :=
  ("<dict>" ++ nl
   ++ "                    <key>Weekday</key>" ++ nl
   ++ "                    <integer>" ++ str_int wd ++ "</integer>" ++ nl
   ++ "                    <key>Minute</key>" ++ nl
   ++ "                    <integer>" ++ str_int startminute ++ "</integer>" ++ nl
   ++ "                    <key>Hour</key>" ++ nl
   ++ "                    <integer>" ++ str_int starthour ++ "</integer>" ++ nl
   ++ "                </dict>" ++ nl
   ++ "                ")%string.

(** The generator, as the list of the strings it yields. *)
Definition get_launchscript_startintervals (block_schedules : list Schedule)
    : list string :=
  flat_map (fun schedule =>
    map (fun wd => startinterval_entry wd (start_minute schedule)
                     (start_hour schedule))
        (get_schedule_weekdays schedule))
    block_schedules.

(** [any(s for s in CONFIG["block-schedules"] if is_schedule_active(s))],
    the check made after installation: the generator yields the active
    schedules, and a schedule that was checked is a dict with keys, hence
    true. *)
Fixpoint any_active (schedules : list Schedule) : M bool :=
  match schedules with
  | [] => ret false
  | s :: rest =>
      b <- is_schedule_active s ;;
      if b then ret true else any_active rest
  end.

(** ** The configuration and its check *)

(** The loaded configuration. A key of the JSON object may be absent
    ([None]); "host-blacklist" may also be present and null
    ([Some None]). Strings are byte strings, a username being its UTF-8
    encoding. *)
Record Config : Type := mk_config {
  cfg_username : option string;
  cfg_selfcontrol_path : option string;
  cfg_block_schedules : option (list Schedule);
  cfg_host_blacklist : option (option (list string))
}.

(** What [check_config] asks the system: the output of
    [dscl . list /users] and [os.path.exists]. *)
Record Env : Type := mk_env {
  dscl_output : string;
  path_exists : string -> bool
}.

(** The whitespace that [bytes.strip()] removes: space and the bytes 9
    to 13. *)
Definition is_space (c : ascii) : bool :=
  (Nat.eqb (nat_of_ascii c) 32
   || (Nat.leb 9 (nat_of_ascii c) && Nat.leb (nat_of_ascii c) 13))%bool.

Fixpoint lstrip (l : list ascii) : list ascii :=
  match l with
  | [] => []
  | c :: r => if is_space c then lstrip r else l
  end.

(** [s.strip()] *)
Definition strip (s : string) : string :=
  string_of_list_ascii
    (rev (lstrip (rev (lstrip (list_ascii_of_string s))))).

(** [output.splitlines()] on bytes: lines end at "\n", "\r" or "\r\n";
    [cur] holds the current line, last byte first. *)
Fixpoint splitlines_from (cur l : list ascii) : list string :=
  match l with
  | [] =>
      match cur with
      | [] => []
      | _ :: _ => [string_of_list_ascii (rev cur)]
      end
  | c :: r =>
      if Ascii.eqb c "010" then
        string_of_list_ascii (rev cur) :: splitlines_from [] r
      else if Ascii.eqb c "013" then
        string_of_list_ascii (rev cur)
        :: splitlines_from []
             (match r with
              | c' :: r' => if Ascii.eqb c' "010" then r' else r
              | [] => r
              end)
      else splitlines_from (c :: cur) r
  end.

Definition splitlines (s : string) : list string :=
  splitlines_from [] (list_ascii_of_string s).

(** [[s.strip() for s in output.splitlines()]] *)
Definition get_osx_usernames (env : Env) : list string :=
  map strip (splitlines (dscl_output env)).

(** The calls of [exit_with_error] in [check_config], which end the
    process with [exit(1)]. *)
Inductive config_error : Type :=
| NoUsername
| UnknownUsername (username : string)
| NoSelfControlPath
| SelfControlPathNotFound
| NoBlockSchedules
| EmptyBlockSchedules.

(** [check_config] either returns, having printed the warning about
    "host-blacklist" or not, or exits with an error. *)
Inductive check_result : Type :=
| ConfigOk (warned : bool)
| ExitWithError (e : config_error).

Definition check_config (env : Env) (config : Config) : check_result :=
  match cfg_username config with
  | None => ExitWithError NoUsername
  | Some u =>
      if negb (existsb (String.eqb u) (get_osx_usernames env))
      then ExitWithError (UnknownUsername u)
      else
        match cfg_selfcontrol_path config with
        | None => ExitWithError NoSelfControlPath
        | Some p =>
            if negb (path_exists env p)
            then ExitWithError SelfControlPathNotFound
            else
              match cfg_block_schedules config with
              | None => ExitWithError NoBlockSchedules
              | Some l =>
                  if Nat.eqb (List.length l) 0
                  then ExitWithError EmptyBlockSchedules
                  else
                    ConfigOk
                      match cfg_host_blacklist config with
                      | None | Some None => true
                      | Some (Some _) => false
                      end
              end
        end
  end.

(** ** Calling SelfControl *)

(** What [execSelfControl] and [check_if_running] ask the system:
    [getpwnam(name).pw_uid], absent when the name is not in the password
    database, and what the call of SelfControl with [--is-running] gives
    for a program path and a user id: an output in which the pattern
    matches YES ([Matched true]) or NO ([Matched false]), an output in
    which it does not match, or an exception raised by
    [subprocess.check_output] or by the decoding of its output. *)
Inductive call_outcome : Type :=
| Matched (answer : bool)
| NoMatch
| CallRaises.

Record System : Type := mk_system {
  getpwnam_uid : string -> option Z;
  is_running_call : string -> Z -> call_outcome
}.

(** The dict that [update_blocklist] dumps. *)
Record Plist : Type := mk_plist {
  HostBlacklist : list string;
  BlockAsWhitelist : bool
}.

(** How [run] ends, from the call of [check_if_running] on: with an exit
    code, with an uncaught exception (the KeyError of a missing key of the
    configuration, the KeyError of [getpwnam], an exception of the call of
    SelfControl, the TypeError of [plistlib.dump]), or with the blocklist
    written and SelfControl called with ["--install", blocklist_path,
    block_end_date]. *)
Inductive run_outcome : Type :=
| SysExit (code : Z)
| UncaughtKeyError (key : string)
| UncaughtUnknownUser (name : string)
| UncaughtCallError
| UncaughtTypeError
| Install (blocklist_path : string) (plist : Plist) (block_end_date : string).

(** The command of [execSelfControl], built before the call: the user id
    of [config["username"]], then the program under
    [config["selfcontrol-path"]]. *)
Definition execSelfControl_command (sys : System) (config : Config)
    : run_outcome + string * Z :=
  match cfg_username config with
  | None => inl (UncaughtKeyError "username")
  | Some u =>
      match getpwnam_uid sys u with
      | None => inl (UncaughtUnknownUser u)
      | Some user_id =>
          match cfg_selfcontrol_path config with
          | None => inl (UncaughtKeyError "selfcontrol-path")
          | Some p =>
              inr ((p ++ "/Contents/MacOS/org.eyebeam.SelfControl")%string,
                   user_id)
          end
      end
  end.

(** [check_if_running]: the answer, or the way the process ends
    ([exit_with_error] leaves with code 1). *)
Definition check_if_running (sys : System) (config : Config)
    : run_outcome + bool :=
  match execSelfControl_command sys config with
  | inl o => inl o
  | inr (program, user_id) =>
      match is_running_call sys program user_id with
      | Matched answer => inr answer
      | NoMatch => inl (SysExit 1)
      | CallRaises => inl UncaughtCallError
      end
  end.

(** ** Writing the blocklist and starting SelfControl *)

(** [update_blocklist]: the plist written, the KeyError of
    [config["host-blacklist"]], raised before the file is opened, or the
    TypeError of [plistlib.dump] on a null "host-blacklist", raised with
    the file opened for writing. *)
Inductive blocklist_result : Type :=
| BlocklistWritten (plist : Plist)
| BlocklistKeyError (key : string)
| BlocklistTypeError.

Definition update_blocklist (config : Config) (schedule : Schedule)
    : blocklist_result :=
  match cfg_host_blacklist config with
  | None => BlocklistKeyError "host-blacklist"
  | Some None => BlocklistTypeError
  | Some (Some hosts) =>
      BlocklistWritten (mk_plist hosts (block_as_whitelist schedule))
  end.

(** [run] from the call of [check_if_running], with the loaded
    [config]. *)
Definition run_with_config (sys : System) (settings_dir : string)
    (config : Config) : M run_outcome :=
  match check_if_running sys config with
  | inl o => ret o
  | inr true => ret (SysExit 2)
  | inr false =>
      match cfg_block_schedules config with
      | None => ret (UncaughtKeyError "block-schedules")
      | Some schedules =>
          found <- next_active schedules ;;
          match found with
          | None => ret (SysExit 0)
          | Some schedule =>
              block_end_date <- get_end_date_of_schedule schedule ;;
              let blocklist_path := (settings_dir ++ "/blocklist")%string in
              match update_blocklist config schedule with
              | BlocklistKeyError key => ret (UncaughtKeyError key)
              | BlocklistTypeError => ret UncaughtTypeError
              | BlocklistWritten plist =>
                  match execSelfControl_command sys config with
                  | inl o => ret o
                  | inr _ => ret (Install blocklist_path plist block_end_date)
                  end
              end
          end
      end
  end.

(** ** Sample values *)

Definition at_time (y m d h mi s : Z) : datetime := mk_datetime y m d h mi s 0.

Definition frozen (now : datetime) (off : Z) : Clock :=
  mk_clock (fun _ => now) (fun _ => off).

Definition office_monday : Schedule := mk_schedule 9 0 17 0 (Some 1) false.
Definition night_friday : Schedule := mk_schedule 22 0 2 0 (Some 5) false.
Definition night_sunday : Schedule := mk_schedule 22 0 2 0 (Some 7) false.
Definition night_daily : Schedule := mk_schedule 22 0 2 0 None false.

(** [starttime] and [endtime] as [is_schedule_active] builds them. *)
Definition starttime_of (now : datetime) (s : Schedule) : datetime :=
  mk_datetime (year now) (month now) (day now)
              (start_hour s) (start_minute s) 0 0.

Definition endtime_of (now : datetime) (s : Schedule) : datetime :=
  mk_datetime (year now) (month now) (day now)
              (end_hour s) (end_minute s) 0 0.

(** Microseconds since midnight. *)
Definition tkey (t : datetime) : Z :=
  ((hour t * 60 + minute t) * 60 + second t) * 1000000 + microsecond t.

(** ** Definitions used to state the properties *)

(** Two date-times on one calendar day, and the ranges of the time fields. *)
Definition same_date (a b : datetime) : Prop :=
  year a = year b /\ month a = month b /\ day a = day b.

Definition time_in_range (t : datetime) : Prop :=
  0 <= hour t <= 23 /\ 0 <= minute t <= 59 /\ 0 <= second t <= 59
  /\ 0 <= microsecond t <= 999999.

(** The schedule applies on the weekday of [now]. *)
Definition on_weekday (now : datetime) (s : Schedule) : bool :=
  match weekday s with
  | None => true
  | Some w => isoweekday now =? w
  end.

(** Decimal digits, to spell out the shape of the result. *)
Definition digit (d : Z) : ascii := ascii_of_nat (48 + Z.to_nat d).

Definition digits2 (v : Z) : string :=
  String (digit (v / 10)) (String (digit (v mod 10)) EmptyString).

Definition digits4 (v : Z) : string :=
  String (digit (v / 1000)) (String (digit (v / 100 mod 10))
    (digits2 (v mod 100))).

(** YYYY-MM-DDTHH:MM:SS *)
Definition iso_stamp (t : datetime) : string :=
  (digits4 (year t) ++ "-" ++ digits2 (month t) ++ "-" ++ digits2 (day t)
   ++ "T" ++ digits2 (hour t) ++ ":" ++ digits2 (minute t) ++ ":"
   ++ digits2 (second t))%string.

(** What the script derives from a local offset of [off] seconds. *)
Definition offset_float (off : Z) : float :=
  utc_offset_of (timedelta_new 0 off 0).

Definition offset_hundredths (off : Z) : Z :=
  match int_of_float (PrimFloat.abs (PrimFloat.mul (offset_float off) 100)) with
  | Ok k => k
  | Raise _ => -1
  end.

Definition sign_of (off : Z) : string :=
  if 0 <=? off then "+"%string else "-"%string.

(** The spec's reading of the offset digits: hundredths of an hour rounded
    to the nearest hundredth. *)
Definition spec_nearest_hundredths (off : Z) : Z :=
  (2 * 100 * Z.abs off + 3600) / (2 * 3600).

Definition spec_offset_suffix (off : Z) : string :=
  (sign_of off ++ zfill 4 (str_int (spec_nearest_hundredths off)))%string.

(** The offset of ISO 8601, the format the docstring of
    [get_end_date_of_schedule] names: the sign, then the whole hours and
    the minutes of the offset, two digits each. *)
Definition iso8601_offset_suffix (off : Z) : string :=
  (sign_of off ++ digits2 (Z.abs off / 3600)
   ++ digits2 (Z.abs off mod 3600 / 60))%string.

(** Checking a decidable property on every integer of an interval. *)
Fixpoint all_from (n : nat) (lo : Z) (P : Z -> bool) : bool :=
  match n with
  | O => true
  | S k => if P lo then all_from k (lo + 1) P else false
  end.

(** Decidable checks run over whole intervals: the padded decimal of a
    number is its digit string, which holds no '%'. *)
Definition no_percent (str : string) : bool :=
  forallb (fun c => negb (Ascii.eqb c "%")) (list_ascii_of_string str).

Definition check_zfill2 (v : Z) : bool :=
  String.eqb (zfill 2 (str_int v)) (digits2 v).

Definition check_zfill4 (v : Z) : bool :=
  String.eqb (zfill 4 (str_int v)) (digits4 v) && no_percent (digits4 v).

(** The offset float rebuilt from the float of the magnitude in
    microseconds, and the check made for every magnitude below a day, with
    either sign: the digits [k] satisfy 36 k <= n <= 36 k + 36 and the sign
    test of the float agrees with the sign of the offset. *)
Definition magnitude (n : Z) : float :=
  PrimFloat.of_uint63 (Uint63.of_Z (n * 1000000)).

Definition scaled (a : float) : float :=
  PrimFloat.div (PrimFloat.div a (float_of_Z (10 ^ 6))) 3600.

Definition hundredths_ok (u : float) (n : Z) (nonneg : bool) : bool :=
  match int_of_float (PrimFloat.abs (PrimFloat.mul u 100)) with
  | Ok k =>
      (0 <=? k) && (36 * k <=? n) && (n <=? 36 * k + 36)
      && Bool.eqb (PrimFloat.leb 0 u) nonneg
  | Raise _ => false
  end.

Definition check_magnitude (n : Z) : bool :=
  let a := magnitude n in
  hundredths_ok (scaled a) n true
  && ((n =? 0) || hundredths_ok (scaled (PrimFloat.opp a)) n false).

(** Offsets of [j] quarter hours give exactly [25 * j] hundredths. *)
Definition check_quarter (j : Z) : bool :=
  (offset_hundredths (900 * j) =? 25 * j)
  && (offset_hundredths (- (900 * j)) =? 25 * j).

(** Every schedule of the list answers "not active" to its own reading of
    the clock, the first one reading at [n]. *)
Fixpoint inactive_from (clk : Clock) (n : nat) (l : list Schedule) : Prop :=
  match l with
  | [] => True
  | x :: rest =>
      is_schedule_active_at (today_at clk n) x = Ok false
      /\ inactive_from clk (S n) rest
  end.

(** Further sample values. *)
Definition evening_monday : Schedule := mk_schedule 17 0 18 0 (Some 1) false.

(** A clock that moves on between two readings. *)
Definition ticking : Clock :=
  mk_clock (fun k => match k with
                     | O => at_time 2024 1 1 16 59 59
                     | _ => at_time 2024 1 1 17 0 1
                     end)
           (fun _ => 0).

(** The (weekday, hour, minute) values one schedule's entries are
    formatted from, in the order the generator yields them. *)
Definition expand (schedule : Schedule) : list (Z * Z * Z) :=
  map (fun wd => (wd, start_hour schedule, start_minute schedule))
      (get_schedule_weekdays schedule).

Definition entry_of (t : Z * Z * Z) : string :=
  let '(wd, h, mi) := t in startinterval_entry wd mi h.

(** The end hour and minute are in range. *)
Definition valid_end (s : Schedule) : bool :=
  (0 <=? end_hour s) && (end_hour s <=? 23)
  && (0 <=? end_minute s) && (end_minute s <=? 59).

(** The exception of [datetime(...)] for an hour or minute out of range:
    OverflowError when one of the two does not fit a C int, ValueError
    otherwise. *)
Definition field_exn (h mi : Z) : exn :=
  if fits_c_int h && fits_c_int mi then ValueError else OverflowError.

(** The exception that a schedule out of range meets first: the one of its
    start time when that is out of range, else the one of its end time. *)
Definition schedule_exn (s : Schedule) : exn :=
  if (0 <=? start_hour s) && (start_hour s <=? 23)
     && (0 <=? start_minute s) && (start_minute s <=? 59)
  then field_exn (end_hour s) (end_minute s)
  else field_exn (start_hour s) (start_minute s).


(** The string holds no occurrence of the character. *)
Definition lacks (c : ascii) (str : string) : bool :=
  forallb (fun x => negb (Ascii.eqb x c)) (list_ascii_of_string str).

(** The configuration with its block schedules replaced. *)
Definition with_schedules (config : Config) (l : list Schedule) : Config :=
  mk_config (cfg_username config) (cfg_selfcontrol_path config) (Some l)
            (cfg_host_blacklist config).

(** The warning of [check_config]: "host-blacklist" is absent or null. *)
Definition warns (config : Config) : bool :=
  match cfg_host_blacklist config with
  | None | Some None => true
  | Some (Some _) => false
  end.

(** ** Reading a start interval entry back *)

(** A reader of the [<dict>] entries of the launch script, written from
    the property list format and not from the script: after [<dict>] come
    three pairs of a [<key>] and an [<integer>] element, in any order and
    with any whitespace between the elements, then [</dict>]. The entry is
    read as its (Weekday, Hour, Minute) values. *)
Fixpoint expect (p s : string) : option string :=
  match p with
  | EmptyString => Some s
  | String c p' =>
      match s with
      | String d s' => if Ascii.eqb c d then expect p' s' else None
      | EmptyString => None
      end
  end.

(** The text before the first "<", and the rest from it on. *)
Fixpoint until_lt (s : string) : string * string :=
  match s with
  | EmptyString => (EmptyString, EmptyString)
  | String c r =>
      if Ascii.eqb c "<" then (EmptyString, s)
      else let (a, b) := until_lt r in (String c a, b)
  end.

Fixpoint skip_blanks (s : string) : string :=
  match s with
  | EmptyString => EmptyString
  | String c r => if is_space c then skip_blanks r else s
  end.

Definition obind {A B : Type} (o : option A) (k : A -> option B) : option B :=
  match o with
  | Some a => k a
  | None => None
  end.

(** [<tag>text</tag>]: the text and what follows the element. *)
Definition element (tag s : string) : option (string * string) :=
  obind (expect ("<" ++ tag ++ ">") (skip_blanks s)) (fun r =>
  let (text, r') := until_lt r in
  obind (expect ("</" ++ tag ++ ">") r') (fun r'' =>
  Some (text, r''))).

Definition parse_int (s : string) : option Z :=
  option_map Z.of_int (NilZero.int_of_string s).

(** A key with its integer value. *)
Definition key_integer (s : string) : option (string * Z * string) :=
  obind (element "key" s) (fun '(k, r) =>
  obind (element "integer" r) (fun '(v, r') =>
  obind (parse_int v) (fun z =>
  Some (k, z, r')))).

Fixpoint value_of (key : string) (d : list (string * Z)) : option Z :=
  match d with
  | [] => None
  | (k, v) :: d' => if String.eqb k key then Some v else value_of key d'
  end.

Definition read_entry (entry : string) : option (Z * Z * Z) :=
  obind (expect "<dict>" (skip_blanks entry)) (fun r1 =>
  obind (key_integer r1) (fun '(k1, v1, r2) =>
  obind (key_integer r2) (fun '(k2, v2, r3) =>
  obind (key_integer r3) (fun '(k3, v3, r4) =>
  obind (expect "</dict>" (skip_blanks r4)) (fun r5 =>
  match skip_blanks r5 with
  | String _ _ => None
  | EmptyString =>
      let d := [(k1, v1); (k2, v2); (k3, v3)] in
      obind (value_of "Weekday" d) (fun wd =>
      obind (value_of "Hour" d) (fun h =>
      obind (value_of "Minute" d) (fun mi =>
      Some (wd, h, mi))))
  end))))).

(** The text of an entry with the texts of its three integers left open. *)
Definition entry_text (wd mi h : string) : string :=
  ("<dict>" ++ nl
   ++ "                    <key>Weekday</key>" ++ nl
   ++ "                    <integer>" ++ wd ++ "</integer>" ++ nl
   ++ "                    <key>Minute</key>" ++ nl
   ++ "                    <integer>" ++ mi ++ "</integer>" ++ nl
   ++ "                    <key>Hour</key>" ++ nl
   ++ "                    <integer>" ++ h ++ "</integer>" ++ nl
   ++ "                </dict>" ++ nl
   ++ "                ")%string.

(** * Properties *)

(** ** Dates, comparison and subtraction *)

Ltac boolprop :=
  repeat match goal with
  | H : _ && _ = true |- _ => apply andb_prop in H; destruct H
  | H : (_ <=? _) = true |- _ => apply Z.leb_le in H
  | H : (_ <? _) = true |- _ => apply Z.ltb_lt in H
  | H : (_ <? _) = false |- _ => apply Z.ltb_ge in H
  | H : (_ =? _) = true |- _ => apply Z.eqb_eq in H
  | H : (_ =? _) = false |- _ => apply Z.eqb_neq in H
  end.

Lemma valid_datetime_time (t : datetime) :
  valid_datetime t = true ->
  0 <= hour t <= 23 /\ 0 <= minute t <= 59 /\ 0 <= second t <= 59
  /\ 0 <= microsecond t <= 999999.
Proof.
  unfold valid_datetime, _check_time_fields. intros H. boolprop. lia.
Qed.

Lemma valid_datetime_date (t : datetime) :
  valid_datetime t = true ->
  _check_date_fields (year t) (month t) (day t) = true.
Proof.
  unfold valid_datetime. intros H. now apply andb_prop in H.
Qed.

Lemma valid_times_ranges (s : Schedule) :
  valid_times s = true ->
  0 <= start_hour s <= 23 /\ 0 <= start_minute s <= 59
  /\ 0 <= end_hour s <= 23 /\ 0 <= end_minute s <= 59.
Proof.
  unfold valid_times. intros H. boolprop. lia.
Qed.

Lemma valid_schedule_times (s : Schedule) :
  valid_schedule s = true -> valid_times s = true.
Proof.
  unfold valid_schedule. intros H. now apply andb_prop in H.
Qed.

Lemma days_in_month_le (y m : Z) : 1 <= m <= 12 -> _days_in_month y m <= 31.
Proof.
  intros R. unfold _days_in_month.
  destruct ((m =? 2) && _is_leap y); [lia|].
  assert (K : m = 1 \/ m = 2 \/ m = 3 \/ m = 4 \/ m = 5 \/ m = 6 \/ m = 7
              \/ m = 8 \/ m = 9 \/ m = 10 \/ m = 11 \/ m = 12) by lia.
  repeat (destruct K as [K|K]; [subst m; simpl; lia|]). subst m; simpl; lia.
Qed.

Lemma date_fits_c_int (t : datetime) :
  valid_datetime t = true ->
  fits_c_int (year t) && fits_c_int (month t) && fits_c_int (day t) = true.
Proof.
  intros Ht. pose proof (valid_datetime_date t Ht) as Hd.
  unfold _check_date_fields, MINYEAR, MAXYEAR in Hd. boolprop.
  pose proof (days_in_month_le (year t) (month t) ltac:(lia)).
  unfold fits_c_int. rewrite !andb_true_iff, !Z.leb_le. lia.
Qed.

Lemma datetime_new_today (t : datetime) (h mi : Z) :
  valid_datetime t = true -> 0 <= h <= 23 -> 0 <= mi <= 59 ->
  datetime_new (year t) (month t) (day t) h mi
  = Ok (mk_datetime (year t) (month t) (day t) h mi 0 0).
Proof.
  intros Ht Hh Hmi. unfold datetime_new.
  rewrite (date_fits_c_int t Ht), (valid_datetime_date t Ht).
  replace (fits_c_int h) with true
    by (symmetry; unfold fits_c_int; rewrite andb_true_iff, !Z.leb_le; lia).
  replace (fits_c_int mi) with true
    by (symmetry; unfold fits_c_int; rewrite andb_true_iff, !Z.leb_le; lia).
  unfold _check_time_fields.
  replace (0 <=? h) with true by (symmetry; apply Z.leb_le; lia).
  replace (h <=? 23) with true by (symmetry; apply Z.leb_le; lia).
  replace (0 <=? mi) with true by (symmetry; apply Z.leb_le; lia).
  replace (mi <=? 59) with true by (symmetry; apply Z.leb_le; lia).
  reflexivity.
Qed.

Lemma isoweekday_range (t : datetime) : 1 <= isoweekday t <= 7.
Proof.
  unfold isoweekday.
  pose proof (Z.mod_pos_bound (toordinal t) 7 ltac:(lia)) as B.
  destruct (toordinal t mod 7 =? 0) eqn:E; boolprop; lia.
Qed.

Lemma cmp_same_date (a b : datetime) :
  same_date a b -> time_in_range a -> time_in_range b ->
  _cmp (fields a) (fields b) = (tkey a ?= tkey b).
Proof.
  destruct a as [y1 m1 d1 h1 mi1 s1 u1], b as [y2 m2 d2 h2 mi2 s2 u2].
  unfold same_date, time_in_range, tkey, fields; simpl.
  intros (-> & -> & ->) Ra Rb. rewrite !Z.compare_refl.
  symmetry.
  destruct (Z.compare_spec h1 h2);
    [ destruct (Z.compare_spec mi1 mi2);
      [ destruct (Z.compare_spec s1 s2);
        [ destruct (Z.compare_spec u1 u2) | | ] | | ] | | ];
    first [ apply Z.compare_eq_iff | apply Z.compare_lt_iff
          | apply Z.compare_gt_iff ]; lia.
Qed.

Lemma dt_le_tkey (a b : datetime) :
  same_date a b -> time_in_range a -> time_in_range b ->
  dt_le a b = (tkey a <=? tkey b).
Proof.
  intros D Ra Rb. unfold dt_le. rewrite (cmp_same_date a b D Ra Rb).
  unfold Z.leb. destruct (tkey a ?= tkey b); reflexivity.
Qed.

Lemma dt_ge_tkey (a b : datetime) :
  same_date a b -> time_in_range a -> time_in_range b ->
  dt_ge a b = (tkey b <=? tkey a).
Proof.
  intros D Ra Rb. unfold dt_ge. rewrite (cmp_same_date a b D Ra Rb).
  unfold Z.leb. rewrite (Z.compare_antisym (tkey a) (tkey b)).
  destruct (tkey a ?= tkey b); reflexivity.
Qed.

(** ** Activation against one reading of the clock *)

Section ActivationFacts.

Variable now : datetime.
Variable s : Schedule.
Hypothesis Hnow : valid_datetime now = true.
Hypothesis Hs : valid_times s = true.

Let st := starttime_of now s.
Let en := endtime_of now s.
Let d := dt_sub en st.

Lemma start_same_date : same_date st now.
Proof. repeat split. Qed.

Lemma end_same_date : same_date en now.
Proof. repeat split. Qed.

Lemma now_in_range : time_in_range now.
Proof. exact (valid_datetime_time now Hnow). Qed.

Lemma start_in_range : time_in_range st.
Proof.
  pose proof (valid_times_ranges s Hs). unfold time_in_range; simpl. lia.
Qed.

Lemma end_in_range : time_in_range en.
Proof.
  pose proof (valid_times_ranges s Hs). unfold time_in_range; simpl. lia.
Qed.

Lemma start_le_now :
  dt_le st now = (tkey st <=? tkey now).
Proof.
  apply dt_le_tkey; [apply start_same_date | apply start_in_range | apply now_in_range].
Qed.

Lemma end_ge_now :
  dt_ge en now = (tkey now <=? tkey en).
Proof.
  apply dt_ge_tkey; [apply end_same_date | apply end_in_range | apply now_in_range].
Qed.

Lemma now_le_end :
  dt_le now en = (tkey now <=? tkey en).
Proof.
  apply dt_le_tkey; [ | apply now_in_range | apply end_in_range].
  repeat split.
Qed.

Lemma end_ge_now_le : dt_ge en now = dt_le now en.
Proof. now rewrite end_ge_now, now_le_end. Qed.

(** [d.days == 0] holds exactly when the window stays within one day. *)
Lemma days_zero : (days d =? 0) = negb (crosses_midnight s).
Proof.
  pose proof (valid_times_ranges s Hs) as R.
  unfold d, dt_sub, timedelta_new, crosses_midnight, en, st,
    endtime_of, starttime_of, toordinal; simpl.
  rewrite Z.sub_diag. change (0 / 1000000) with 0.
  destruct (end_hour s * 60 + end_minute s <? start_hour s * 60 + start_minute s) eqn:E;
    simpl; boolprop.
  - apply Z.eqb_neq. Z.div_mod_to_equations. lia.
  - apply Z.eqb_eq. Z.div_mod_to_equations. lia.
Qed.

Lemma is_schedule_active_at_loop :
  is_schedule_active_at now s
  = Ok (weekday_loop now st en d (get_schedule_weekdays s)).
Proof.
  pose proof (valid_times_ranges s Hs) as R.
  unfold is_schedule_active_at.
  rewrite !datetime_new_today by (assumption || lia).
  reflexivity.
Qed.

(** The loop body for one weekday, by the shape of the window. *)
Lemma weekday_result_same_day (wd : Z) :
  crosses_midnight s = false ->
  weekday_result now st en d wd
  = (weekday_diff now wd =? 0) && (dt_le st now && dt_le now en).
Proof.
  intros C. unfold weekday_result. rewrite days_zero, C, end_ge_now_le. simpl.
  destruct (weekday_diff now wd =? 0); [reflexivity|].
  destruct ((weekday_diff now wd =? 1) || (weekday_diff now wd =? -6));
    reflexivity.
Qed.

Lemma weekday_result_crossing (wd : Z) :
  crosses_midnight s = true ->
  weekday_result now st en d wd
  = if weekday_diff now wd =? 0 then dt_le st now
    else ((weekday_diff now wd =? 1) || (weekday_diff now wd =? -6))
         && dt_le now en.
Proof.
  intros C. unfold weekday_result. rewrite days_zero, C. simpl.
  destruct (weekday_diff now wd =? 0); [reflexivity|].
  destruct ((weekday_diff now wd =? 1) || (weekday_diff now wd =? -6));
    reflexivity.
Qed.

Lemma active_at_weekday (w : Z) :
  weekday s = Some w ->
  is_schedule_active_at now s = Ok (weekday_result now st en d w).
Proof.
  intros W. rewrite is_schedule_active_at_loop.
  unfold get_schedule_weekdays. rewrite W. simpl.
  destruct (weekday_result now st en d w); reflexivity.
Qed.

(** With no weekday the loop meets today's weekday and yesterday's. *)
Lemma active_at_every_day :
  weekday s = None ->
  is_schedule_active_at now s
  = Ok (if crosses_midnight s then dt_le st now || dt_le now en
        else dt_le st now && dt_le now en).
Proof.
  intros W. rewrite is_schedule_active_at_loop.
  unfold get_schedule_weekdays. rewrite W. f_equal.
  unfold weekday_loop, weekday_result, weekday_diff.
  rewrite days_zero, end_ge_now_le.
  pose proof (isoweekday_range now) as R.
  assert (K : isoweekday now = 1 \/ isoweekday now = 2 \/ isoweekday now = 3
              \/ isoweekday now = 4 \/ isoweekday now = 5
              \/ isoweekday now = 6 \/ isoweekday now = 7) by lia.
  destruct (crosses_midnight s), (dt_le st now), (dt_le now en);
    repeat (destruct K as [K|K]; [rewrite K; reflexivity|]);
    rewrite K; reflexivity.
Qed.

End ActivationFacts.

Lemma weekday_diff_today (now : datetime) (w : Z) :
  1 <= w <= 7 -> (weekday_diff now w =? 0) = (isoweekday now =? w).
Proof.
  intros W. pose proof (isoweekday_range now) as R. unfold weekday_diff.
  destruct (isoweekday now =? w) eqn:E; boolprop.
  - apply Z.eqb_eq. rewrite E. lia.
  - apply Z.eqb_neq. Z.div_mod_to_equations. lia.
Qed.

Lemma weekday_diff_yesterday (now : datetime) (w : Z) :
  1 <= w <= 7 ->
  (weekday_diff now w =? 1) || (weekday_diff now w =? -6)
  = (isoweekday now =? w mod 7 + 1).
Proof.
  intros W. pose proof (isoweekday_range now) as R. unfold weekday_diff.
  destruct (isoweekday now =? w mod 7 + 1) eqn:E; boolprop.
  - apply orb_true_iff. rewrite !Z.eqb_eq. Z.div_mod_to_equations. lia.
  - apply orb_false_iff. rewrite !Z.eqb_neq. Z.div_mod_to_equations. lia.
Qed.

Lemma is_schedule_active_run (s : Schedule) (clk : Clock) (n : nat) :
  is_schedule_active s clk n
  = (is_schedule_active_at (today_at clk n) s, S n).
Proof.
  unfold is_schedule_active, bind, datetime_today, lift.
  destruct (is_schedule_active_at (today_at clk n) s); reflexivity.
Qed.

Lemma active_same_day (now : datetime) (s : Schedule) :
  valid_datetime now = true -> valid_schedule s = true ->
  crosses_midnight s = false ->
  is_schedule_active_at now s
  = Ok (on_weekday now s
        && (dt_le (starttime_of now s) now && dt_le now (endtime_of now s))).
Proof.
  intros Hnow Hs C. pose proof (valid_schedule_times s Hs) as Ht.
  unfold on_weekday. destruct (weekday s) as [w|] eqn:W.
  - rewrite (active_at_weekday now s Hnow Ht w W).
    rewrite (weekday_result_same_day now s Hnow Ht w C).
    rewrite weekday_diff_today; [reflexivity|].
    unfold valid_schedule, valid_weekday in Hs. rewrite W in Hs.
    boolprop. lia.
  - rewrite (active_at_every_day now s Hnow Ht W), C. reflexivity.
Qed.

(** On its weekday a midnight-crossing schedule answers through the
    difference-0 branch, on the following day through the branch for
    yesterday's schedules. *)
Lemma midnight_crossing_facts
    (clk : Clock) (n : nat) (now : datetime) (s : Schedule) (w : Z) :
  today_at clk n = now ->
  valid_datetime now = true ->
  valid_schedule s = true ->
  weekday s = Some w ->
  crosses_midnight s = true ->
  (isoweekday now = w ->
   dt_le (starttime_of now s) now = true ->
   is_schedule_active s clk n = (Ok true, S n))
  /\ (isoweekday now = w mod 7 + 1 ->
      is_schedule_active s clk n
      = (Ok (dt_le now (endtime_of now s)), S n)).
Proof.
  intros E Hnow Hs W C. pose proof (valid_schedule_times s Hs) as Ht.
  assert (Rw : 1 <= w <= 7).
  { unfold valid_schedule, valid_weekday in Hs. rewrite W in Hs.
    boolprop. lia. }
  rewrite is_schedule_active_run, E.
  rewrite (active_at_weekday now s Hnow Ht w W).
  rewrite (weekday_result_crossing now s Ht w C).
  rewrite weekday_diff_today, weekday_diff_yesterday by exact Rw.
  split.
  - intros D L. apply Z.eqb_eq in D. rewrite D. fold (starttime_of now s).
    now rewrite L.
  - intros D.
    assert (N : (isoweekday now =? w) = false).
    { apply Z.eqb_neq. Z.div_mod_to_equations. lia. }
    apply Z.eqb_eq in D. rewrite N, D. reflexivity.
Qed.

(** C1. A schedule with a weekday whose window crosses midnight is active
    on that weekday from the start time on, and on the following day
    exactly until the end time: there [is_schedule_active] answers
    [now <= endtime], true up to the end time and false after it. *)
Theorem midnight_crossing_activation
    (clk : Clock) (n : nat) (now : datetime) (s : Schedule) (w : Z) :
  today_at clk n = now ->
  valid_datetime now = true ->
  valid_schedule s = true ->
  weekday s = Some w ->
  crosses_midnight s = true ->
  (isoweekday now = w ->
   dt_le (starttime_of now s) now = true ->
   is_schedule_active s clk n = (Ok true, S n))
  /\ (isoweekday now = w mod 7 + 1 ->
      is_schedule_active s clk n
      = (Ok (dt_le now (endtime_of now s)), S n)).
Proof.
  exact (midnight_crossing_facts clk n now s w).
Qed.

Lemma midnight_crossing_activation_witness :
  is_schedule_active night_friday
    (frozen (at_time 2024 1 5 23 0 0) 3600) 0%nat = (Ok true, 1%nat)
  /\ is_schedule_active night_friday
       (frozen (at_time 2024 1 6 1 0 0) 3600) 0%nat = (Ok true, 1%nat)
  /\ is_schedule_active night_friday
       (frozen (at_time 2024 1 6 3 0 0) 3600) 0%nat = (Ok false, 1%nat).
Proof.
  split; [|split].
  - apply (proj1 (midnight_crossing_activation
             (frozen (at_time 2024 1 5 23 0 0) 3600) 0 _ night_friday 5
             eq_refl eq_refl eq_refl eq_refl eq_refl)); reflexivity.
  - apply (proj2 (midnight_crossing_activation
             (frozen (at_time 2024 1 6 1 0 0) 3600) 0 _ night_friday 5
             eq_refl eq_refl eq_refl eq_refl eq_refl)); reflexivity.
  - apply (proj2 (midnight_crossing_activation
             (frozen (at_time 2024 1 6 3 0 0) 3600) 0 _ night_friday 5
             eq_refl eq_refl eq_refl eq_refl eq_refl)); reflexivity.
Defined.

(** C2. A schedule with a weekday whose window stays within one day is
    active exactly when now falls on that weekday and
    start <= now <= end, both bounds included. *)
Theorem same_day_activation
    (clk : Clock) (n : nat) (now : datetime) (s : Schedule) (w : Z) :
  today_at clk n = now ->
  valid_datetime now = true ->
  valid_schedule s = true ->
  weekday s = Some w ->
  crosses_midnight s = false ->
  is_schedule_active s clk n
  = (Ok ((isoweekday now =? w)
         && (dt_le (starttime_of now s) now
             && dt_le now (endtime_of now s))), S n).
Proof.
  intros E Hnow Hs W C.
  rewrite is_schedule_active_run, E, (active_same_day now s Hnow Hs C).
  unfold on_weekday. rewrite W. reflexivity.
Qed.

Lemma same_day_activation_witness :
  is_schedule_active office_monday
    (frozen (at_time 2024 1 1 9 0 0) 0) 0%nat = (Ok true, 1%nat)
  /\ is_schedule_active office_monday
       (frozen (at_time 2024 1 1 17 0 0) 0) 0%nat = (Ok true, 1%nat)
  /\ is_schedule_active office_monday
       (frozen (at_time 2024 1 1 8 59 0) 0) 0%nat = (Ok false, 1%nat)
  /\ is_schedule_active office_monday
       (frozen (at_time 2024 1 1 17 1 0) 0) 0%nat = (Ok false, 1%nat)
  /\ is_schedule_active office_monday
       (frozen (at_time 2024 1 2 10 0 0) 0) 0%nat = (Ok false, 1%nat).
Proof.
  split; [|split; [|split; [|split]]].
  - exact (same_day_activation (frozen (at_time 2024 1 1 9 0 0) 0) 0%nat _
             office_monday 1 eq_refl eq_refl eq_refl eq_refl eq_refl).
  - exact (same_day_activation (frozen (at_time 2024 1 1 17 0 0) 0) 0%nat _
             office_monday 1 eq_refl eq_refl eq_refl eq_refl eq_refl).
  - exact (same_day_activation (frozen (at_time 2024 1 1 8 59 0) 0) 0%nat _
             office_monday 1 eq_refl eq_refl eq_refl eq_refl eq_refl).
  - exact (same_day_activation (frozen (at_time 2024 1 1 17 1 0) 0) 0%nat _
             office_monday 1 eq_refl eq_refl eq_refl eq_refl eq_refl).
  - exact (same_day_activation (frozen (at_time 2024 1 2 10 0 0) 0) 0%nat _
             office_monday 1 eq_refl eq_refl eq_refl eq_refl eq_refl).
Defined.

(** C10. For a window that stays within one day, checked on a day the
    schedule applies to: within the end minute only the instant
    end_hour:end_minute:00 sharp is active, any later instant of that
    minute is not; within the start minute every instant that is not past
    the end is active, hence all of them when the end lies in a later
    minute. *)
Theorem same_day_subminute
    (clk : Clock) (n : nat) (now : datetime) (s : Schedule) :
  today_at clk n = now ->
  valid_datetime now = true ->
  valid_schedule s = true ->
  crosses_midnight s = false ->
  on_weekday now s = true ->
  (hour now = end_hour s -> minute now = end_minute s ->
   is_schedule_active s clk n
   = (Ok ((second now =? 0) && (microsecond now =? 0)), S n))
  /\ (hour now = start_hour s -> minute now = start_minute s ->
      dt_le now (endtime_of now s) = true ->
      is_schedule_active s clk n = (Ok true, S n))
  /\ (hour now = start_hour s -> minute now = start_minute s ->
      start_hour s * 60 + start_minute s < end_hour s * 60 + end_minute s ->
      is_schedule_active s clk n = (Ok true, S n)).
Proof.
  intros E Hnow Hs C D. pose proof (valid_schedule_times s Hs) as Ht.
  rewrite is_schedule_active_run, E, (active_same_day now s Hnow Hs C), D.
  rewrite (start_le_now now s Hnow Ht), (now_le_end now s Hnow Ht).
  pose proof (valid_datetime_time now Hnow) as R.
  pose proof (valid_times_ranges s Ht) as Rs.
  unfold crosses_midnight in C. boolprop.
  unfold tkey, starttime_of, endtime_of; simpl.
  split; [|split].
  - intros Hh Hm. rewrite Hh, Hm. do 2 f_equal.
    destruct (second now =? 0) eqn:S0, (microsecond now =? 0) eqn:U0;
      boolprop; simpl;
      rewrite ?andb_true_iff, ?andb_false_iff, ?Z.leb_le, ?Z.leb_gt; lia.
  - intros Hh Hm L. rewrite Hh, Hm in *. rewrite L. do 2 f_equal.
    rewrite andb_true_r. apply Z.leb_le. lia.
  - intros Hh Hm L. rewrite Hh, Hm. do 2 f_equal.
    apply andb_true_iff. rewrite !Z.leb_le. lia.
Qed.

Lemma same_day_subminute_witness :
  is_schedule_active office_monday
    (frozen (at_time 2024 1 1 17 0 0) 0) 0%nat = (Ok true, 1%nat)
  /\ is_schedule_active office_monday
       (frozen (at_time 2024 1 1 17 0 30) 0) 0%nat = (Ok false, 1%nat)
  /\ is_schedule_active office_monday
       (frozen (at_time 2024 1 1 9 0 59) 0) 0%nat = (Ok true, 1%nat).
Proof.
  split; [|split].
  - apply (proj1 (same_day_subminute (frozen (at_time 2024 1 1 17 0 0) 0) 0%nat _
             office_monday eq_refl eq_refl eq_refl eq_refl eq_refl));
      reflexivity.
  - apply (proj1 (same_day_subminute (frozen (at_time 2024 1 1 17 0 30) 0) 0%nat _
             office_monday eq_refl eq_refl eq_refl eq_refl eq_refl));
      reflexivity.
  - apply (proj2 (proj2 (same_day_subminute
             (frozen (at_time 2024 1 1 9 0 59) 0) 0%nat _
             office_monday eq_refl eq_refl eq_refl eq_refl eq_refl)));
      [reflexivity | reflexivity | simpl; lia].
Defined.

(** ** Weekday arithmetic at the Sunday/Monday boundary *)

(** The loop body sees the weekday only through [weekday % 7]. *)
Lemma weekday_result_mod (now st en : datetime) (d : timedelta) (w w' : Z) :
  w mod 7 = w' mod 7 ->
  weekday_result now st en d w = weekday_result now st en d w'.
Proof.
  intros H. unfold weekday_result, weekday_diff. now rewrite H.
Qed.

Lemma is_schedule_active_weekday_mod
    (s : Schedule) (w w' : Z) (clk : Clock) (n : nat) :
  w mod 7 = w' mod 7 ->
  is_schedule_active (set_weekday s (Some w)) clk n
  = is_schedule_active (set_weekday s (Some w')) clk n.
Proof.
  intros H. rewrite !is_schedule_active_run. f_equal.
  unfold is_schedule_active_at, set_weekday, get_schedule_weekdays; simpl.
  destruct (datetime_new _ _ _ (start_hour s) _) as [st|]; [|reflexivity].
  destruct (datetime_new _ _ _ (end_hour s) _) as [en|]; [|reflexivity].
  simpl. now rewrite (weekday_result_mod _ _ _ _ w w' H).
Qed.

Lemma weekday_diff_minus_six (now : datetime) (w : Z) :
  weekday_diff now w = -6 <-> isoweekday now = 7 /\ w mod 7 = 6.
Proof.
  pose proof (isoweekday_range now) as R. unfold weekday_diff.
  split; intros H; Z.div_mod_to_equations; lia.
Qed.

(** C5, as the claim has it, fails on the branch it names: on a Monday the
    weekday difference to a Sunday (7) schedule is 1, not -6, although the
    schedule is active. *)
Lemma sunday_branch_counterexample :
  isoweekday (at_time 2024 1 8 1 0 0) = 1
  /\ is_schedule_active night_sunday
       (frozen (at_time 2024 1 8 1 0 0) 0) 0%nat = (Ok true, 1%nat)
  /\ weekday_diff (at_time 2024 1 8 1 0 0) 7 <> -6.
Proof.
  split; [reflexivity|]. split; [reflexivity|].
  vm_compute. discriminate.
Qed.

(** C5, amended. A Sunday (weekday 7) schedule whose window crosses
    midnight is active on Monday up to its end time, through the
    difference-1 branch; the difference -6 arises only for a Saturday
    schedule checked on a Sunday. The weekday enters only modulo 7, so
    weekday 7 and weekday 0 give the same answer at every reading, and so do
    any two weekdays that agree modulo 7. *)
Theorem sunday_wraparound :
  (forall (clk : Clock) (n : nat) (now : datetime) (s : Schedule),
     today_at clk n = now ->
     valid_datetime now = true ->
     valid_times s = true ->
     crosses_midnight s = true ->
     isoweekday now = 1 ->
     dt_le now (endtime_of now s) = true ->
     weekday_diff now 7 = 1
     /\ is_schedule_active (set_weekday s (Some 7)) clk n = (Ok true, S n))
  /\ (forall (now : datetime) (w : Z),
        weekday_diff now w = -6 <-> isoweekday now = 7 /\ w mod 7 = 6)
  /\ (forall (clk : Clock) (n : nat) (s : Schedule),
        is_schedule_active (set_weekday s (Some 7)) clk n
        = is_schedule_active (set_weekday s (Some 0)) clk n)
  /\ (forall (clk : Clock) (n : nat) (s : Schedule) (w w' : Z),
        w mod 7 = w' mod 7 ->
        is_schedule_active (set_weekday s (Some w)) clk n
        = is_schedule_active (set_weekday s (Some w')) clk n).
Proof.
  split; [|split; [|split]].
  - intros clk n now s E Hnow Ht C D L.
    assert (Hs : valid_schedule (set_weekday s (Some 7)) = true).
    { unfold valid_schedule. apply andb_true_iff. split; [exact Ht|reflexivity]. }
    destruct (midnight_crossing_facts clk n now (set_weekday s (Some 7)) 7
                E Hnow Hs eq_refl C) as [_ Hnext].
    split.
    + unfold weekday_diff. rewrite D. reflexivity.
    + rewrite Hnext by (rewrite D; reflexivity).
      change (endtime_of now (set_weekday s (Some 7))) with (endtime_of now s).
      now rewrite L.
  - exact weekday_diff_minus_six.
  - intros clk n s. now apply is_schedule_active_weekday_mod.
  - intros clk n s w w' H. now apply is_schedule_active_weekday_mod.
Qed.

Lemma sunday_wraparound_witness :
  weekday_diff (at_time 2024 1 8 1 0 0) 7 = 1
  /\ is_schedule_active (set_weekday night_sunday (Some 7))
       (frozen (at_time 2024 1 8 1 0 0) 0) 0%nat = (Ok true, 1%nat).
Proof.
  exact (proj1 sunday_wraparound (frozen (at_time 2024 1 8 1 0 0) 0) 0%nat _
           night_sunday eq_refl eq_refl eq_refl eq_refl eq_refl eq_refl).
Defined.

(** ** The end date string *)

Lemma all_from_spec (P : Z -> bool) (n : nat) :
  forall lo, all_from n lo P = true ->
  forall z, lo <= z < lo + Z.of_nat n -> P z = true.
Proof.
  induction n as [|k IH]; intros lo H z R.
  - simpl in R. lia.
  - simpl in H. destruct (P lo) eqn:E; [|discriminate].
    destruct (Z.eq_dec z lo) as [->|N]; [exact E|].
    apply (IH (lo + 1) H). lia.
Qed.

Lemma all_from_range (P : Z -> bool) (lo len : Z) :
  all_from (Z.to_nat len) lo P = true ->
  forall z, lo <= z < lo + len -> P z = true.
Proof.
  intros H z R. apply (all_from_spec P (Z.to_nat len) lo H). lia.
Qed.

Lemma zfill2_digits (v : Z) :
  0 <= v <= 99 -> zfill 2 (str_int v) = digits2 v.
Proof.
  intros R. apply String.eqb_eq. fold (check_zfill2 v).
  apply (all_from_range check_zfill2 0 100); [vm_cast_no_check (eq_refl true) | lia].
Qed.

Lemma zfill4_digits (v : Z) :
  0 <= v <= 9999 ->
  zfill 4 (str_int v) = digits4 v /\ no_percent (digits4 v) = true.
Proof.
  intros R. rewrite <- String.eqb_eq. apply andb_true_iff.
  fold (check_zfill4 v).
  apply (all_from_range check_zfill4 0 10000);
    [vm_cast_no_check (eq_refl true) | lia].
Qed.

Lemma timedelta_total (off : Z) :
  total_seconds (timedelta_new 0 off 0)
  = PrimFloat.div (float_of_Z (off * 1000000)) (float_of_Z (10 ^ 6)).
Proof.
  unfold total_seconds, int_truediv, timedelta_new.
  cbn [days seconds microseconds]. f_equal. f_equal.
  change (10 ^ 6) with 1000000. Z.div_mod_to_equations. lia.
Qed.

Lemma offset_float_nonneg (n : Z) :
  0 <= n -> offset_float n = scaled (magnitude n).
Proof.
  intros R. unfold offset_float, utc_offset_of. rewrite timedelta_total.
  unfold scaled, magnitude. f_equal. f_equal. unfold float_of_Z at 1.
  destruct (n * 1000000 <? 0) eqn:E; [apply Z.ltb_lt in E; lia | reflexivity].
Qed.

Lemma offset_float_neg (n : Z) :
  0 < n -> offset_float (- n) = scaled (PrimFloat.opp (magnitude n)).
Proof.
  intros R. unfold offset_float, utc_offset_of. rewrite timedelta_total.
  unfold scaled, magnitude. f_equal. f_equal. unfold float_of_Z at 1.
  destruct (- n * 1000000 <? 0) eqn:E; [|apply Z.ltb_ge in E; lia].
  do 3 f_equal. lia.
Qed.

Lemma check_magnitude_day (n : Z) :
  0 <= n < 86400 -> check_magnitude n = true.
Proof.
  intros R.
  apply (all_from_range check_magnitude 0 86400);
    [vm_cast_no_check (eq_refl true) | lia].
Qed.

Lemma check_quarter_day (j : Z) :
  0 <= j < 96 -> check_quarter j = true.
Proof.
  intros R.
  apply (all_from_range check_quarter 0 96);
    [vm_cast_no_check (eq_refl true) | lia].
Qed.

Lemma hundredths_ok_facts (off n : Z) (nonneg : bool) :
  Z.abs off = n ->
  (0 <=? off) = nonneg ->
  hundredths_ok (offset_float off) n nonneg = true ->
  offset_digits (offset_float off)
  = Ok (zfill 4 (str_int (offset_hundredths off)))
  /\ offset_sign (offset_float off) = sign_of off
  /\ 0 <= offset_hundredths off
  /\ 36 * offset_hundredths off <= n <= 36 * offset_hundredths off + 36.
Proof.
  intros Ha Hs H. unfold hundredths_ok in H.
  unfold offset_digits, offset_hundredths, offset_sign, sign_of.
  destruct (int_of_float (PrimFloat.abs (PrimFloat.mul (offset_float off) 100)))
    as [k|e]; [|discriminate].
  apply andb_prop in H. destruct H as [H Hsign].
  apply andb_prop in H. destruct H as [H Hhi].
  apply andb_prop in H. destruct H as [H0 Hlo].
  apply Z.leb_le in H0, Hlo, Hhi. apply Bool.eqb_prop in Hsign.
  rewrite Hsign, Hs. cbn [result_bind]. repeat split; assumption.
Qed.

Lemma offset_facts (off : Z) :
  -86400 < off < 86400 ->
  offset_digits (offset_float off) = Ok (zfill 4 (str_int (offset_hundredths off)))
  /\ offset_sign (offset_float off) = sign_of off
  /\ 0 <= offset_hundredths off <= 2399
  /\ (offset_hundredths off = Z.abs off / 36
      \/ (Z.abs off mod 36 = 0 /\ offset_hundredths off = Z.abs off / 36 - 1))
  /\ (Z.abs off mod 900 = 0 -> offset_hundredths off * 36 = Z.abs off).
Proof.
  intros R.
  assert (F : offset_digits (offset_float off)
              = Ok (zfill 4 (str_int (offset_hundredths off)))
              /\ offset_sign (offset_float off) = sign_of off
              /\ 0 <= offset_hundredths off
              /\ 36 * offset_hundredths off <= Z.abs off
                 <= 36 * offset_hundredths off + 36).
  { pose proof (check_magnitude_day (Z.abs off) ltac:(lia)) as H.
    unfold check_magnitude in H. apply andb_prop in H. destruct H as [Hp Hn].
    destruct (Z.leb_spec 0 off) as [P|N].
    - apply (hundredths_ok_facts off (Z.abs off) true eq_refl).
      + now apply Z.leb_le.
      + rewrite <- (Z.abs_eq off P) at 1.
        now rewrite (offset_float_nonneg (Z.abs off) ltac:(lia)).
    - apply orb_prop in Hn. destruct Hn as [Hn|Hn]; [apply Z.eqb_eq in Hn; lia|].
      apply (hundredths_ok_facts off (Z.abs off) false eq_refl).
      + now apply Z.leb_gt.
      + replace off with (- Z.abs off) at 1 by lia.
        now rewrite (offset_float_neg (Z.abs off) ltac:(lia)). }
  destruct F as (Fd & Fs & F0 & Flo & Fhi).
  split; [exact Fd|]. split; [exact Fs|]. split; [lia|]. split.
  - Z.div_mod_to_equations. lia.
  - intros M.
    pose proof (check_quarter_day (Z.abs off / 900)
                  ltac:(Z.div_mod_to_equations; lia)) as Q.
    unfold check_quarter in Q. apply andb_prop in Q. destruct Q as [Qp Qn].
    apply Z.eqb_eq in Qp, Qn.
    assert (E : 900 * (Z.abs off / 900) = Z.abs off)
      by (Z.div_mod_to_equations; lia).
    rewrite E in Qp, Qn.
    destruct (Z.leb_spec 0 off) as [P|N].
    + rewrite (Z.abs_eq off P) in Qp. rewrite Qp.
      Z.div_mod_to_equations. lia.
    + replace (- Z.abs off) with off in Qn by lia. rewrite Qn.
      Z.div_mod_to_equations. lia.
Qed.

Lemma string_app_assoc (a b c : string) :
  ((a ++ b) ++ c = a ++ (b ++ c))%string.
Proof.
  induction a as [|x a IH]; simpl; [reflexivity|]. now rewrite IH.
Qed.

Lemma strftime_literal (t : datetime) (str : string) :
  no_percent str = true -> strftime t str = str.
Proof.
  induction str as [|c rest IH]; [reflexivity|].
  unfold no_percent. simpl. intros H. apply andb_prop in H. destruct H as [Hc Hr].
  destruct rest as [|c' rest']; [reflexivity|].
  apply negb_true_iff in Hc. rewrite Hc. f_equal. apply IH. exact Hr.
Qed.

Lemma strftime_iso (t : datetime) (rest : string) :
  strftime t ("%Y-%m-%dT%H:%M:%S" ++ rest)
  = (zfill 4 (str_int (year t)) ++ "-" ++ zfill 2 (str_int (month t)) ++ "-"
     ++ zfill 2 (str_int (day t)) ++ "T" ++ zfill 2 (str_int (hour t)) ++ ":"
     ++ zfill 2 (str_int (minute t)) ++ ":" ++ zfill 2 (str_int (second t))
     ++ strftime t rest)%string.
Proof.
  reflexivity.
Qed.

Lemma valid_datetime_ymd (t : datetime) :
  valid_datetime t = true ->
  1 <= year t <= 9999 /\ 1 <= month t <= 12 /\ 1 <= day t <= 31.
Proof.
  intros H. apply valid_datetime_date in H.
  unfold _check_date_fields, MINYEAR, MAXYEAR in H. boolprop.
  pose proof (days_in_month_le (year t) (month t) ltac:(lia)). lia.
Qed.

Lemma no_percent_app (a b : string) :
  no_percent (a ++ b) = no_percent a && no_percent b.
Proof.
  unfold no_percent. induction a as [|c a IH]; [reflexivity|].
  cbn [append list_ascii_of_string forallb]. rewrite IH. apply andb_assoc.
Qed.

Lemma strftime_iso_digits (t : datetime) (sign : string) (k : Z) :
  1 <= year t <= 9999 -> 1 <= month t <= 12 -> 1 <= day t <= 31 ->
  time_in_range t ->
  sign = "+"%string \/ sign = "-"%string ->
  0 <= k <= 9999 ->
  strftime t ("%Y-%m-%dT%H:%M:%S" ++ sign ++ zfill 4 (str_int k))
  = (iso_stamp t ++ sign ++ digits4 k)%string.
Proof.
  intros Ry Rm Rd (Rh & Rmi & Rs & _) Hsign Rk.
  rewrite strftime_iso.
  destruct (zfill4_digits k Rk) as [Ek Pk]. rewrite Ek.
  rewrite (strftime_literal t (sign ++ digits4 k)).
  - rewrite (proj1 (zfill4_digits (year t) ltac:(lia))).
    rewrite !zfill2_digits by lia.
    unfold iso_stamp. rewrite !string_app_assoc. reflexivity.
  - rewrite no_percent_app, Pk, andb_true_r.
    destruct Hsign as [-> | ->]; reflexivity.
Qed.

Lemma sign_of_cases (off : Z) :
  sign_of off = "+"%string \/ sign_of off = "-"%string.
Proof. unfold sign_of. destruct (0 <=? off); [left|right]; reflexivity. Qed.

(** The value of [get_end_date_of_schedule]: the date of the reading it
    takes, the schedule's end hour and minute, and the offset read next. *)
Lemma get_end_date_value (clk : Clock) (n : nat) (s : Schedule) :
  valid_datetime (today_at clk n) = true ->
  valid_times s = true ->
  -86400 < utc_offset_at clk (S n) < 86400 ->
  get_end_date_of_schedule s clk n
  = (Ok (iso_stamp (endtime_of (today_at clk n) s)
         ++ sign_of (utc_offset_at clk (S n))
         ++ digits4 (offset_hundredths (utc_offset_at clk (S n))))%string,
     S (S n)).
Proof.
  intros Hnow Ht Roff.
  pose proof (valid_times_ranges s Ht) as R.
  pose proof (valid_datetime_ymd _ Hnow) as (Ry & Rm & Rd).
  destruct (offset_facts _ Roff) as (Ed & Es & Rk & _).
  unfold get_end_date_of_schedule, bind, datetime_today, lift, time_time,
    local_minus_utc, ret.
  rewrite datetime_new_today by (assumption || lia).
  change (utc_offset_of (timedelta_new 0 (utc_offset_at clk (S n)) 0))
    with (offset_float (utc_offset_at clk (S n))).
  rewrite Ed, Es. f_equal. f_equal.
  apply strftime_iso_digits; cbn [endtime_of year month day]; try lia.
  - unfold time_in_range; cbn [endtime_of hour minute second microsecond]; lia.
  - apply sign_of_cases.
Qed.

Lemma stamp_length (t : datetime) (off k : Z) :
  String.length (iso_stamp t ++ sign_of off ++ digits4 k) = 24%nat.
Proof.
  unfold sign_of, iso_stamp, digits4, digits2.
  destruct (0 <=? off); cbn [append String.length]; reflexivity.
Qed.

(** C4. For a local offset of 5 h 40 min the script writes the suffix
    +0566: 566 hundredths of an hour, cut off. The claim's rounding to the
    nearest hundredth gives +0567, and neither is the +0540 of the ISO 8601
    format that the function's docstring names. For the offset of 5 h
    30 min the script writes +0550 where ISO 8601 has +0530; for whole
    hours, as for +01:00, the two agree. *)
Lemma end_date_rounding_counterexample :
  get_end_date_of_schedule night_friday
    (frozen (at_time 2024 1 5 23 0 0) 20400) 0%nat
  = (Ok "2024-01-05T02:00:00+0566"%string, 2%nat)
  /\ spec_offset_suffix 20400 = "+0567"%string
  /\ "2024-01-05T02:00:00+0566"%string
     <> ("2024-01-05T02:00:00" ++ spec_offset_suffix 20400)%string
  /\ iso8601_offset_suffix 20400 = "+0540"%string
  /\ get_end_date_of_schedule night_friday
       (frozen (at_time 2024 1 5 23 0 0) 19800) 0%nat
     = (Ok "2024-01-05T02:00:00+0550"%string, 2%nat)
  /\ iso8601_offset_suffix 19800 = "+0530"%string
  /\ get_end_date_of_schedule night_friday
       (frozen (at_time 2024 1 5 23 0 0) 3600) 0%nat
     = (Ok ("2024-01-05T02:00:00" ++ iso8601_offset_suffix 3600)%string,
        2%nat).
Proof.
  split; [vm_compute; reflexivity|].
  split; [vm_compute; reflexivity|].
  split; [vm_compute; discriminate|].
  repeat split; vm_compute; reflexivity.
Qed.

(** X17. For a valid schedule, a valid reading of the clock and a
    local offset of less than a day, the result is YYYY-MM-DDTHH:MM:SS
    followed by five characters: '+' for an offset of zero or more and '-'
    otherwise, then exactly four digits. The digits give the offset in
    hundredths of an hour cut off toward zero, not rounded: they are the
    whole part of |offset| / 36 s whenever the offset is not an exact
    multiple of 36 s, and they are exact for every offset that is a whole
    number of quarter hours. For the other exact multiples of 36 s the
    double-precision product may fall just below the integer, and the
    digits are then that whole part or one less. *)
Theorem end_date_format
    (clk : Clock) (n : nat) (now : datetime) (s : Schedule) (off : Z) :
  today_at clk n = now ->
  utc_offset_at clk (S n) = off ->
  valid_datetime now = true ->
  valid_schedule s = true ->
  -86400 < off < 86400 ->
  get_end_date_of_schedule s clk n
  = (Ok (iso_stamp (endtime_of now s) ++ sign_of off
         ++ digits4 (offset_hundredths off))%string, S (S n))
  /\ String.length (iso_stamp (endtime_of now s) ++ sign_of off
                    ++ digits4 (offset_hundredths off)) = 24%nat
  /\ 0 <= offset_hundredths off <= 2399
  /\ (offset_hundredths off = Z.abs off / 36
      \/ (Z.abs off mod 36 = 0 /\ offset_hundredths off = Z.abs off / 36 - 1))
  /\ (Z.abs off mod 900 = 0 -> offset_hundredths off * 36 = Z.abs off).
Proof.
  intros E Eo Hnow Hs R. subst now off.
  split.
  - apply get_end_date_value; [assumption | now apply valid_schedule_times | assumption].
  - split; [apply stamp_length|].
    destruct (offset_facts _ R) as (_ & _ & Rk & Hk & Hq). auto.
Qed.

Lemma end_date_format_witness :
  get_end_date_of_schedule night_friday
    (frozen (at_time 2024 1 5 23 0 0) 19800) 0%nat
  = (Ok "2024-01-05T02:00:00+0550"%string, 2%nat).
Proof.
  exact (proj1 (end_date_format (frozen (at_time 2024 1 5 23 0 0) 19800) 0%nat
                  _ night_friday _ eq_refl eq_refl eq_refl eq_refl
                  (conj eq_refl eq_refl))).
Defined.

(** C3. The end date always carries the year, month and day of the clock
    reading, with the schedule's end hour and minute, whether or not the
    window crosses midnight; so for the 22:00-02:00 schedule read on a
    Friday at 23:00 the schedule is active and the end date, 02:00 on that
    same Friday, lies before the window's start and before now. *)
Theorem end_date_same_day_anchor :
  (forall (clk : Clock) (n : nat) (now : datetime) (s : Schedule) (off : Z),
     today_at clk n = now ->
     utc_offset_at clk (S n) = off ->
     valid_datetime now = true ->
     valid_schedule s = true ->
     -86400 < off < 86400 ->
     get_end_date_of_schedule s clk n
     = (Ok (iso_stamp (mk_datetime (year now) (month now) (day now)
                         (end_hour s) (end_minute s) 0 0)
            ++ sign_of off ++ digits4 (offset_hundredths off))%string,
        S (S n)))
  /\ (exists (clk : Clock) (now : datetime) (s : Schedule),
        today_at clk 0%nat = now /\ today_at clk 1%nat = now
        /\ crosses_midnight s = true
        /\ is_schedule_active s clk 0%nat = (Ok true, 1%nat)
        /\ get_end_date_of_schedule s clk 1%nat
           = (Ok (iso_stamp (endtime_of now s) ++ "+0100")%string, 3%nat)
        /\ dt_le (starttime_of now s) (endtime_of now s) = false
        /\ dt_le now (endtime_of now s) = false).
Proof.
  split.
  - intros clk n now s off E Eo Hnow Hs R. subst now off.
    apply get_end_date_value; [assumption | now apply valid_schedule_times | assumption].
  - exists (frozen (at_time 2024 1 5 23 0 0) 3600), (at_time 2024 1 5 23 0 0),
      night_friday.
    repeat (split; [vm_compute; reflexivity|]). vm_compute; reflexivity.
Qed.

Lemma end_date_same_day_anchor_witness :
  get_end_date_of_schedule night_friday
    (frozen (at_time 2024 1 5 23 0 0) 3600) 1%nat
  = (Ok "2024-01-05T02:00:00+0100"%string, 3%nat).
Proof.
  exact (proj1 end_date_same_day_anchor
           (frozen (at_time 2024 1 5 23 0 0) 3600) 1%nat _ night_friday _
           eq_refl eq_refl eq_refl eq_refl (conj eq_refl eq_refl)).
Defined.

(** ** Selecting the schedule *)

Lemma next_active_cons (s : Schedule) (rest : list Schedule)
    (clk : Clock) (n : nat) :
  next_active (s :: rest) clk n
  = match is_schedule_active_at (today_at clk n) s with
    | Ok true => (Ok (Some s), S n)
    | Ok false => next_active rest clk (S n)
    | Raise e => (Raise e, S n)
    end.
Proof.
  cbn [next_active]. unfold bind at 1. rewrite is_schedule_active_run.
  destruct (is_schedule_active_at (today_at clk n) s) as [[|]|e]; reflexivity.
Qed.

Lemma next_active_skips (clk : Clock) (pre : list Schedule) :
  forall (n : nat) (s : Schedule) (post : list Schedule),
  inactive_from clk n pre ->
  is_schedule_active_at (today_at clk (n + List.length pre)) s = Ok true ->
  next_active (pre ++ s :: post) clk n
  = (Ok (Some s), S (n + List.length pre)).
Proof.
  induction pre as [|x pre IH]; intros n s post Hpre Hs.
  - cbn [app List.length] in *. rewrite Nat.add_0_r in *.
    rewrite next_active_cons, Hs. reflexivity.
  - destruct Hpre as [Hx Hpre]. cbn [app List.length] in *.
    rewrite next_active_cons, Hx.
    rewrite Nat.add_succ_r in *. apply (IH (S n)); assumption.
Qed.

Lemma next_active_none (clk : Clock) (l : list Schedule) :
  forall n : nat,
  inactive_from clk n l ->
  next_active l clk n = (Ok None, (n + List.length l)%nat).
Proof.
  induction l as [|x l IH]; intros n H.
  - cbn. now rewrite Nat.add_0_r.
  - destruct H as [Hx H]. rewrite next_active_cons, Hx.
    cbn [List.length]. rewrite Nat.add_succ_r. apply (IH (S n)); assumption.
Qed.

Lemma run_none (clk : Clock) (l : list Schedule) (n : nat) :
  inactive_from clk n l ->
  run l clk n = (Ok (Exit 0), (n + List.length l)%nat).
Proof.
  intros H. unfold run, bind. rewrite (next_active_none clk l n H). reflexivity.
Qed.

Lemma inactive_from_frozen (clk : Clock) (now : datetime) (l : list Schedule) :
  (forall k, today_at clk k = now) ->
  Forall (fun x => is_schedule_active_at now x = Ok false) l ->
  forall n, inactive_from clk n l.
Proof.
  intros F H. induction H as [|x l Hx Hl IH]; intros n; cbn; [exact I|].
  rewrite F. split; [exact Hx | apply IH].
Qed.

(** C6. Against one now, the selection returns the first schedule of the
    list, in input order, that is active, whatever follows it (so the
    earlier of two active schedules), and it finds none when no schedule is
    active or the list is empty; [run] then leaves with [exit(0)]. *)
Theorem first_active_selected (clk : Clock) (now : datetime) :
  (forall k, today_at clk k = now) ->
  (forall (n : nat) (pre : list Schedule) (s : Schedule) (post : list Schedule),
     Forall (fun x => is_schedule_active_at now x = Ok false) pre ->
     is_schedule_active_at now s = Ok true ->
     next_active (pre ++ s :: post) clk n
     = (Ok (Some s), S (n + List.length pre)))
  /\ (forall (n : nat) (l : list Schedule),
        Forall (fun x => is_schedule_active_at now x = Ok false) l ->
        next_active l clk n = (Ok None, (n + List.length l)%nat)
        /\ run l clk n = (Ok (Exit 0), (n + List.length l)%nat))
  /\ (forall n : nat,
        next_active [] clk n = (Ok None, n)
        /\ run [] clk n = (Ok (Exit 0), n)).
Proof.
  intros F. split; [|split].
  - intros n pre s post Hpre Hs. apply next_active_skips.
    + now apply (inactive_from_frozen clk now).
    + now rewrite F.
  - intros n l Hl.
    pose proof (inactive_from_frozen clk now l F Hl n) as H.
    split; [now apply next_active_none | now apply run_none].
  - intros n. split; reflexivity.
Qed.

Lemma first_active_selected_witness :
  next_active [office_monday; night_friday; night_daily]
    (frozen (at_time 2024 1 5 23 0 0) 0) 0%nat
  = (Ok (Some night_friday), 2%nat).
Proof.
  apply (proj1 (first_active_selected (frozen (at_time 2024 1 5 23 0 0) 0)
                  (at_time 2024 1 5 23 0 0) (fun _ => eq_refl))
           0%nat [office_monday] night_friday [night_daily]).
  - constructor; [reflexivity | constructor].
  - reflexivity.
Defined.

(** C8, as the claim has it, fails: the pass below reads the clock twice,
    the two schedules are checked against different readings, and it ends
    with no schedule selected although at either reading one of the two is
    active. *)
Lemma clock_read_once_counterexample :
  run [evening_monday; office_monday] ticking 0%nat = (Ok (Exit 0), 2%nat)
  /\ today_at ticking 0%nat <> today_at ticking 1%nat
  /\ is_schedule_active_at (today_at ticking 0%nat) office_monday = Ok true
  /\ is_schedule_active_at (today_at ticking 1%nat) evening_monday = Ok true
  /\ fst (run [evening_monday; office_monday]
            (frozen (today_at ticking 0%nat) 0) 0%nat) <> Ok (Exit 0)
  /\ fst (run [evening_monday; office_monday]
            (frozen (today_at ticking 1%nat) 0) 0%nat) <> Ok (Exit 0).
Proof.
  split; [vm_compute; reflexivity|].
  split; [vm_compute; discriminate|].
  split; [vm_compute; reflexivity|].
  split; [vm_compute; reflexivity|].
  split; vm_compute; discriminate.
Qed.

(** C8, amended. A pass reads the clock once for every schedule it
    examines: the schedule at position i is checked against reading n + i,
    up to and including the first active one. When a schedule is selected,
    [get_end_date_of_schedule] makes two further readings, one for the date
    and one for the UTC offset, so the pass makes i + 3 readings; when none
    is active it makes one reading per schedule and no offset is
    computed. *)
Theorem pass_clock_readings (clk : Clock) (n : nat) :
  (forall (pre : list Schedule) (s : Schedule) (post : list Schedule),
     inactive_from clk n pre ->
     is_schedule_active_at (today_at clk (n + List.length pre)) s = Ok true ->
     valid_datetime (today_at clk (S (n + List.length pre))) = true ->
     valid_schedule s = true ->
     -86400 < utc_offset_at clk (S (S (n + List.length pre))) < 86400 ->
     run (pre ++ s :: post) clk n
     = (Ok (StartSelfControl s
              (iso_stamp (endtime_of (today_at clk (S (n + List.length pre))) s)
               ++ sign_of (utc_offset_at clk (S (S (n + List.length pre))))
               ++ digits4 (offset_hundredths
                             (utc_offset_at clk (S (S (n + List.length pre))))))),
        S (S (S (n + List.length pre)))))
  /\ (forall l : list Schedule,
        inactive_from clk n l ->
        run l clk n = (Ok (Exit 0), (n + List.length l)%nat)).
Proof.
  split.
  - intros pre s post Hpre Hs Hnow Hv Roff.
    unfold run, bind at 1.
    rewrite (next_active_skips clk pre n s post Hpre Hs).
    unfold bind.
    rewrite get_end_date_value
      by (assumption || now apply valid_schedule_times).
    reflexivity.
  - intros l H. now apply run_none.
Qed.

Lemma pass_clock_readings_witness :
  run [office_monday; evening_monday] ticking 0%nat
  = (Ok (StartSelfControl office_monday "2024-01-01T17:00:00+0000"), 3%nat).
Proof.
  exact (proj1 (pass_clock_readings ticking 0%nat) [] office_monday
           [evening_monday] I eq_refl eq_refl eq_refl (conj eq_refl eq_refl)).
Defined.

(** ** No domain errors on valid input *)

Lemma is_schedule_active_total (clk : Clock) (s : Schedule) (n : nat) :
  valid_datetime (today_at clk n) = true ->
  valid_schedule s = true ->
  exists b, is_schedule_active_at (today_at clk n) s = Ok b.
Proof.
  intros Hnow Hs. eexists.
  apply is_schedule_active_at_loop; [assumption | now apply valid_schedule_times].
Qed.

Lemma next_active_total (clk : Clock) (l : list Schedule) :
  (forall k, valid_datetime (today_at clk k) = true) ->
  Forall (fun s => valid_schedule s = true) l ->
  forall n, exists r m,
    next_active l clk n = (Ok r, m)
    /\ (r = None \/ exists s, r = Some s /\ In s l).
Proof.
  intros Hclk H. induction H as [|x l Hx Hl IH]; intros n.
  - exists None, n. split; [reflexivity | now left].
  - rewrite next_active_cons.
    destruct (is_schedule_active_total clk x n (Hclk n) Hx) as [b Hb].
    rewrite Hb. destruct b.
    + exists (Some x), (S n). split; [reflexivity|].
      right. exists x. split; [reflexivity | now left].
    + destruct (IH (S n)) as (r & m & E & Hr). exists r, m.
      split; [exact E|]. destruct Hr as [Hr | (s & Hr & Hin)]; [now left|].
      right. exists s. split; [exact Hr | now right].
Qed.

(** C9. When every schedule satisfies the data model, the clock returns
    valid date-times and the local offset stays below a day,
    [is_schedule_active] and [get_end_date_of_schedule] return a value and
    raise nothing, and so does the pass of [run], which ends either with
    [exit(0)], when nothing is active, or with a schedule of the list to
    start. The expansion into start intervals is a total function that has
    no failing step. *)
Theorem no_domain_errors (clk : Clock) (schedules : list Schedule) :
  (forall k, valid_datetime (today_at clk k) = true) ->
  (forall k, -86400 < utc_offset_at clk k < 86400) ->
  Forall (fun s => valid_schedule s = true) schedules ->
  (forall s n, In s schedules ->
     exists b, is_schedule_active s clk n = (Ok b, S n))
  /\ (forall s n, In s schedules ->
        exists stamp, get_end_date_of_schedule s clk n = (Ok stamp, S (S n)))
  /\ (forall n, exists o m,
        run schedules clk n = (Ok o, m)
        /\ (o = Exit 0
            \/ exists s stamp, In s schedules /\ o = StartSelfControl s stamp))
  /\ List.length (get_launchscript_startintervals schedules)
     = list_sum (map (fun s => List.length (get_schedule_weekdays s)) schedules).
Proof.
  intros Hclk Hoff Hall.
  pose proof (proj1 (Forall_forall _ _) Hall) as Hin.
  split; [|split; [|split]].
  - intros s n Hs. rewrite is_schedule_active_run.
    destruct (is_schedule_active_total clk s n (Hclk n) (Hin s Hs)) as [b Hb].
    exists b. now rewrite Hb.
  - intros s n Hs. eexists.
    apply get_end_date_value;
      [apply Hclk | apply valid_schedule_times, Hin, Hs | apply Hoff].
  - intros n.
    destruct (next_active_total clk schedules Hclk Hall n)
      as (r & m & E & Hr).
    unfold run, bind at 1. rewrite E.
    destruct Hr as [-> | (s & -> & Hs)].
    + exists (Exit 0), m. split; [reflexivity | now left].
    + unfold bind.
      rewrite get_end_date_value
        by (apply Hclk || apply Hoff || apply valid_schedule_times, Hin, Hs).
      eexists _, _. split; [reflexivity|]. right. eauto.
  - unfold get_launchscript_startintervals.
    clear. induction schedules as [|x l IH]; [reflexivity|].
    cbn [flat_map map list_sum]. rewrite length_app, length_map, IH.
    reflexivity.
Qed.

Lemma no_domain_errors_witness :
  exists o m,
    run [office_monday; night_friday]
      (frozen (at_time 2024 1 5 23 0 0) 3600) 0%nat = (Ok o, m)
    /\ (o = Exit 0
        \/ exists s stamp,
             In s [office_monday; night_friday] /\ o = StartSelfControl s stamp).
Proof.
  refine (proj1 (proj2 (proj2 (no_domain_errors
            (frozen (at_time 2024 1 5 23 0 0) 3600)
            [office_monday; night_friday] (fun _ => eq_refl)
            (fun _ => conj eq_refl eq_refl) _))) 0%nat).
  repeat constructor.
Defined.

(** Outside the data model the constructor does raise. *)
Example hour_out_of_range_raises :
  is_schedule_active (mk_schedule 25 0 2 0 None false)
    (frozen (at_time 2024 1 6 3 0 0) 3600) 0%nat = (Raise ValueError, 1%nat).
Proof. reflexivity. Qed.

(** ** Further properties of the activation check *)

Lemma time_check_zero_seconds (h mi : Z) :
  _check_time_fields h mi 0 0
  = (0 <=? h) && (h <=? 23) && (0 <=? mi) && (mi <=? 59).
Proof.
  unfold _check_time_fields.
  change (0 <=? 0) with true. change (0 <=? 59) with true.
  change (0 <=? 999999) with true. now rewrite !andb_true_r.
Qed.

(** An hour or minute out of range makes the constructor raise. *)
Lemma datetime_new_error (t : datetime) (h mi : Z) :
  valid_datetime t = true ->
  (0 <=? h) && (h <=? 23) && (0 <=? mi) && (mi <=? 59) = false ->
  datetime_new (year t) (month t) (day t) h mi = Raise (field_exn h mi).
Proof.
  intros Ht H. unfold datetime_new, field_exn.
  rewrite <- !andb_assoc. rewrite (andb_assoc (fits_c_int (year t))).
  rewrite (andb_assoc (fits_c_int (year t) && fits_c_int (month t))).
  rewrite (date_fits_c_int t Ht). cbn [andb].
  rewrite time_check_zero_seconds, H, andb_false_r.
  destruct (fits_c_int h && fits_c_int mi); reflexivity.
Qed.

Lemma datetime_new_ok_range (y m d h mi : Z) (t : datetime) :
  datetime_new y m d h mi = Ok t ->
  (0 <=? h) && (h <=? 23) && (0 <=? mi) && (mi <=? 59) = true.
Proof.
  unfold datetime_new.
  destruct (fits_c_int y && fits_c_int m && fits_c_int d
            && fits_c_int h && fits_c_int mi); [|discriminate].
  rewrite time_check_zero_seconds.
  destruct (_check_date_fields y m d); cbn [andb]; [|discriminate].
  destruct ((0 <=? h) && (h <=? 23) && (0 <=? mi) && (mi <=? 59));
    [reflexivity | discriminate].
Qed.

Lemma datetime_new_valid (t : datetime) (h mi : Z) :
  valid_datetime t = true ->
  (0 <=? h) && (h <=? 23) && (0 <=? mi) && (mi <=? 59) = true ->
  datetime_new (year t) (month t) (day t) h mi
  = Ok (mk_datetime (year t) (month t) (day t) h mi 0 0).
Proof.
  intros Ht H. boolprop. apply datetime_new_today; [assumption | lia | lia].
Qed.

(** X1. A schedule without a weekday is active on every calendar day
    alike: the answer depends on now only through its time of day. It is
    start <= now <= end for a window within one day, and now >= start or
    now <= end for a window across midnight. *)
Theorem every_day_activation
    (clk : Clock) (n : nat) (now : datetime) (s : Schedule) :
  today_at clk n = now ->
  valid_datetime now = true ->
  valid_times s = true ->
  weekday s = None ->
  is_schedule_active s clk n
  = (Ok (if crosses_midnight s
         then (tkey (starttime_of now s) <=? tkey now)
              || (tkey now <=? tkey (endtime_of now s))
         else (tkey (starttime_of now s) <=? tkey now)
              && (tkey now <=? tkey (endtime_of now s))), S n)
  /\ (forall now' : datetime,
        valid_datetime now' = true ->
        tkey now' = tkey now ->
        is_schedule_active_at now' s = is_schedule_active_at now s).
Proof.
  intros E Hnow Ht W. split.
  - rewrite is_schedule_active_run, E, (active_at_every_day now s Hnow Ht W).
    rewrite (start_le_now now s Hnow Ht), (now_le_end now s Hnow Ht).
    reflexivity.
  - intros now' Hnow' K.
    rewrite (active_at_every_day now s Hnow Ht W).
    rewrite (active_at_every_day now' s Hnow' Ht W).
    rewrite (start_le_now now s Hnow Ht), (now_le_end now s Hnow Ht).
    rewrite (start_le_now now' s Hnow' Ht), (now_le_end now' s Hnow' Ht).
    unfold tkey in *. cbn [starttime_of endtime_of hour minute second microsecond] in *.
    rewrite K. reflexivity.
Qed.

Lemma every_day_activation_witness :
  is_schedule_active night_daily
    (frozen (at_time 2024 1 3 1 30 0) 0) 0%nat = (Ok true, 1%nat)
  /\ is_schedule_active_at (at_time 2025 7 19 1 30 0) night_daily
     = is_schedule_active_at (at_time 2024 1 3 1 30 0) night_daily.
Proof.
  destruct (every_day_activation (frozen (at_time 2024 1 3 1 30 0) 0) 0%nat
              _ night_daily eq_refl eq_refl eq_refl eq_refl) as [A B].
  split; [exact A | exact (B (at_time 2025 7 19 1 30 0) eq_refl eq_refl)].
Defined.

(** X2. A schedule with a weekday whose window crosses midnight is active
    on two days only: on its own weekday from the start time on, and on the
    following day until the end time; on every other weekday it is not
    active. *)
Theorem midnight_crossing_two_days
    (clk : Clock) (n : nat) (now : datetime) (s : Schedule) (w : Z) :
  today_at clk n = now ->
  valid_datetime now = true ->
  valid_schedule s = true ->
  weekday s = Some w ->
  crosses_midnight s = true ->
  is_schedule_active s clk n
  = (Ok ((isoweekday now =? w) && dt_le (starttime_of now s) now
         || (isoweekday now =? w mod 7 + 1) && dt_le now (endtime_of now s)),
     S n).
Proof.
  intros E Hnow Hs W C. pose proof (valid_schedule_times s Hs) as Ht.
  assert (Rw : 1 <= w <= 7).
  { unfold valid_schedule, valid_weekday in Hs. rewrite W in Hs.
    boolprop. lia. }
  rewrite is_schedule_active_run, E.
  rewrite (active_at_weekday now s Hnow Ht w W).
  rewrite (weekday_result_crossing now s Ht w C).
  rewrite weekday_diff_today, weekday_diff_yesterday by exact Rw.
  do 2 f_equal.
  destruct (isoweekday now =? w) eqn:D; cbn [andb orb].
  - destruct (isoweekday now =? w mod 7 + 1) eqn:D'; cbn [andb].
    + boolprop. exfalso. Z.div_mod_to_equations. lia.
    + now rewrite orb_false_r.
  - reflexivity.
Qed.

Lemma midnight_crossing_two_days_witness :
  is_schedule_active night_friday
    (frozen (at_time 2024 1 7 23 0 0) 0) 0%nat = (Ok false, 1%nat).
Proof.
  exact (midnight_crossing_two_days (frozen (at_time 2024 1 7 23 0 0) 0) 0%nat
           _ night_friday 5 eq_refl eq_refl eq_refl eq_refl eq_refl).
Defined.

Lemma field_exn_fits (h mi : Z) :
  fits_c_int h && fits_c_int mi = true -> field_exn h mi = ValueError.
Proof. unfold field_exn. now intros ->. Qed.

(** What [is_schedule_active] answers or raises at a valid reading. *)
Lemma is_schedule_active_at_invalid (now : datetime) (s : Schedule) :
  valid_datetime now = true ->
  valid_times s = false ->
  is_schedule_active_at now s = Raise (schedule_exn s).
Proof.
  intros Hnow H. unfold is_schedule_active_at, valid_times, schedule_exn in *.
  destruct ((0 <=? start_hour s) && (start_hour s <=? 23)
            && (0 <=? start_minute s) && (start_minute s <=? 59)) eqn:Hst.
  - rewrite (datetime_new_valid _ _ _ Hnow Hst). cbn [result_bind].
    cbn [andb] in H.
    rewrite (datetime_new_error _ _ _ Hnow H). reflexivity.
  - rewrite (datetime_new_error _ _ _ Hnow Hst). reflexivity.
Qed.



(** ** Further properties of the end date *)

(** Whether the end time built from a reading lies before that reading,
    for a schedule that is active at it. *)
Lemma end_time_versus_reading (now : datetime) (s : Schedule) :
  valid_datetime now = true ->
  valid_times s = true ->
  is_schedule_active_at now s = Ok true ->
  (crosses_midnight s = false -> dt_le now (endtime_of now s) = true)
  /\ (crosses_midnight s = true ->
      dt_le (starttime_of now s) now = true ->
      dt_le now (endtime_of now s) = false)
  /\ (crosses_midnight s = true ->
      dt_le (starttime_of now s) now = false ->
      dt_le now (endtime_of now s) = true).
Proof.
  intros Hnow Ht A.
  assert (B : (if crosses_midnight s
               then dt_le (starttime_of now s) now || dt_le now (endtime_of now s)
               else dt_le (starttime_of now s) now && dt_le now (endtime_of now s))
              = true).
  { destruct (weekday s) as [w|] eqn:W.
    - rewrite (active_at_weekday now s Hnow Ht w W) in A.
      injection A as A.
      destruct (crosses_midnight s) eqn:C.
      + rewrite (weekday_result_crossing now s Ht w C) in A.
        destruct (weekday_diff now w =? 0).
        * now rewrite A.
        * apply andb_prop in A. destruct A as [_ A]. rewrite A.
          apply orb_true_r.
      + rewrite (weekday_result_same_day now s Hnow Ht w C) in A.
        apply andb_prop in A. now destruct A.
    - rewrite (active_at_every_day now s Hnow Ht W) in A. now injection A. }
  rewrite (start_le_now now s Hnow Ht), (now_le_end now s Hnow Ht) in *.
  pose proof (valid_times_ranges s Ht) as R.
  unfold crosses_midnight, tkey in *.
  cbn [starttime_of endtime_of hour minute second microsecond] in *.
  split; [|split]; intros C.
  - rewrite C in B. apply andb_prop in B. now destruct B.
  - intros L. boolprop. apply Z.leb_gt. lia.
  - intros L. rewrite C, L in B. exact B.
Qed.

Lemma get_end_date_only_end (s1 s2 : Schedule) (clk : Clock) (n : nat) :
  end_hour s1 = end_hour s2 -> end_minute s1 = end_minute s2 ->
  get_end_date_of_schedule s1 clk n = get_end_date_of_schedule s2 clk n.
Proof.
  intros Hh Hm. unfold get_end_date_of_schedule. now rewrite Hh, Hm.
Qed.

Lemma get_end_date_valid_end (clk : Clock) (n : nat) (s : Schedule) :
  valid_datetime (today_at clk n) = true ->
  valid_end s = true ->
  -86400 < utc_offset_at clk (S n) < 86400 ->
  get_end_date_of_schedule s clk n
  = (Ok (iso_stamp (endtime_of (today_at clk n) s)
         ++ sign_of (utc_offset_at clk (S n))
         ++ digits4 (offset_hundredths (utc_offset_at clk (S n))))%string,
     S (S n)).
Proof.
  intros Hnow He Roff.
  rewrite (get_end_date_only_end s
             (mk_schedule 0 0 (end_hour s) (end_minute s) None false) clk n
             eq_refl eq_refl).
  exact (get_end_date_value clk n
           (mk_schedule 0 0 (end_hour s) (end_minute s) None false)
           Hnow He Roff).
Qed.

(** X5. Given a valid reading of the clock and an offset of less than a
    day, [get_end_date_of_schedule] raises exactly when the end hour or
    minute is out of range, after one reading of the clock and before the
    offset is read: an OverflowError when the end hour or minute does not
    fit a C int, a ValueError otherwise. The start fields and the weekday
    play no part. *)
Theorem get_end_date_errors (clk : Clock) (n : nat) (s : Schedule) :
  valid_datetime (today_at clk n) = true ->
  -86400 < utc_offset_at clk (S n) < 86400 ->
  (valid_end s = true ->
   exists d, get_end_date_of_schedule s clk n = (Ok d, S (S n)))
  /\ (valid_end s = false ->
      get_end_date_of_schedule s clk n
      = (Raise (field_exn (end_hour s) (end_minute s)), S n))
  /\ (valid_end s = false ->
      fits_c_int (end_hour s) && fits_c_int (end_minute s) = true ->
      get_end_date_of_schedule s clk n = (Raise ValueError, S n)).
Proof.
  intros Hnow Roff.
  assert (E : valid_end s = false ->
              get_end_date_of_schedule s clk n
              = (Raise (field_exn (end_hour s) (end_minute s)), S n)).
  { intros H. unfold get_end_date_of_schedule, bind, datetime_today, lift.
    unfold valid_end in H. now rewrite (datetime_new_error _ _ _ Hnow H). }
  split; [|split].
  - intros H. eexists. now apply get_end_date_valid_end.
  - exact E.
  - intros H F. rewrite (E H). now rewrite (field_exn_fits _ _ F).
Qed.

Lemma get_end_date_errors_witness :
  get_end_date_of_schedule (mk_schedule 99 99 24 0 None false)
    (frozen (at_time 2024 1 1 10 0 0) 0) 0%nat = (Raise ValueError, 1%nat)
  /\ get_end_date_of_schedule (mk_schedule 99 99 0 (-2147483649) None false)
       (frozen (at_time 2024 1 1 10 0 0) 0) 0%nat = (Raise OverflowError, 1%nat)
  /\ exists d, get_end_date_of_schedule (mk_schedule 99 99 23 0 None false)
                 (frozen (at_time 2024 1 1 10 0 0) 0) 0%nat = (Ok d, 2%nat).
Proof.
  split; [|split].
  - exact (proj2 (proj2 (get_end_date_errors (frozen (at_time 2024 1 1 10 0 0) 0)
                    0%nat (mk_schedule 99 99 24 0 None false) eq_refl
                    (conj eq_refl eq_refl))) eq_refl eq_refl).
  - exact (proj1 (proj2 (get_end_date_errors (frozen (at_time 2024 1 1 10 0 0) 0)
                    0%nat (mk_schedule 99 99 0 (-2147483649) None false) eq_refl
                    (conj eq_refl eq_refl))) eq_refl).
  - exact (proj1 (get_end_date_errors (frozen (at_time 2024 1 1 10 0 0) 0)
                    0%nat (mk_schedule 99 99 23 0 None false) eq_refl
                    (conj eq_refl eq_refl)) eq_refl).
Defined.

Lemma digit_inj (a b : Z) :
  0 <= a <= 9 -> 0 <= b <= 9 -> digit a = digit b -> a = b.
Proof.
  intros Ra Rb H. unfold digit in H.
  apply (f_equal nat_of_ascii) in H.
  rewrite !nat_ascii_embedding in H by lia. lia.
Qed.

Lemma digits2_inj (a b : Z) :
  0 <= a <= 99 -> 0 <= b <= 99 -> digits2 a = digits2 b -> a = b.
Proof.
  intros Ra Rb H. unfold digits2 in H. injection H as H1 H0.
  apply digit_inj in H1; [|Z.div_mod_to_equations; lia ..].
  apply digit_inj in H0; [|Z.div_mod_to_equations; lia ..].
  Z.div_mod_to_equations. lia.
Qed.

(** X6. Read at the same time, two schedules with end times in range get
    the same end date string exactly when they have the same end hour and
    the same end minute. *)
Theorem end_date_identifies_end_time
    (clk : Clock) (n : nat) (s1 s2 : Schedule) :
  valid_datetime (today_at clk n) = true ->
  -86400 < utc_offset_at clk (S n) < 86400 ->
  valid_end s1 = true ->
  valid_end s2 = true ->
  get_end_date_of_schedule s1 clk n = get_end_date_of_schedule s2 clk n
  <-> end_hour s1 = end_hour s2 /\ end_minute s1 = end_minute s2.
Proof.
  intros Hnow Roff H1 H2. split.
  - rewrite !get_end_date_valid_end by assumption.
    intros E. injection E as Eh1 Eh0 Em1 Em0.
    unfold valid_end in H1, H2. boolprop.
    apply digit_inj in Eh1; [|Z.div_mod_to_equations; lia ..].
    apply digit_inj in Eh0; [|Z.div_mod_to_equations; lia ..].
    apply digit_inj in Em1; [|Z.div_mod_to_equations; lia ..].
    apply digit_inj in Em0; [|Z.div_mod_to_equations; lia ..].
    split; Z.div_mod_to_equations; lia.
  - intros [Hh Hm]. now apply get_end_date_only_end.
Qed.

Lemma end_date_identifies_end_time_witness :
  get_end_date_of_schedule office_monday
    (frozen (at_time 2024 1 1 10 0 0) 0) 0%nat
  = get_end_date_of_schedule (mk_schedule 12 30 17 0 None true)
      (frozen (at_time 2024 1 1 10 0 0) 0) 0%nat.
Proof.
  apply (proj2 (end_date_identifies_end_time
                  (frozen (at_time 2024 1 1 10 0 0) 0) 0%nat office_monday
                  (mk_schedule 12 30 17 0 None true) eq_refl
                  (conj eq_refl eq_refl) eq_refl eq_refl)).
  split; reflexivity.
Defined.

Lemma active_answer_valid_times (now : datetime) (s : Schedule) (b : bool) :
  is_schedule_active_at now s = Ok b -> valid_times s = true.
Proof.
  unfold is_schedule_active_at, valid_times. intros H.
  destruct (datetime_new _ _ _ (start_hour s) _) as [st|] eqn:Hst;
    [|discriminate].
  cbn [result_bind] in H.
  destruct (datetime_new _ _ _ (end_hour s) _) as [en|] eqn:Hen;
    [|discriminate].
  apply datetime_new_ok_range in Hst, Hen.
  rewrite <- !andb_assoc in *. rewrite !andb_true_iff in *. tauto.
Qed.

Lemma active_answer_valid_end (now : datetime) (s : Schedule) (b : bool) :
  is_schedule_active_at now s = Ok b -> valid_end s = true.
Proof.
  unfold is_schedule_active_at, valid_end. intros H.
  destruct (datetime_new _ _ _ (start_hour s) _); [|discriminate].
  cbn [result_bind] in H.
  destruct (datetime_new _ _ _ (end_hour s) _) as [en|] eqn:Hen;
    [|discriminate].
  now apply datetime_new_ok_range in Hen.
Qed.

(** X4. The end time that [get_end_date_of_schedule] formats, compared
    with the reading at which [is_schedule_active] answered active. The end
    date is computed from the next reading of the clock; when that reading
    falls on the same calendar day as the check, the end time written is
    not before the check's reading if the window stays within one day, or
    if it crosses midnight and the check fell in the part after midnight;
    if the window crosses midnight and the check fell at or after the start
    time, the end time written is earlier than the check. *)
Theorem end_time_versus_now (clk : Clock) (n : nat) (s : Schedule) :
  valid_datetime (today_at clk n) = true ->
  valid_datetime (today_at clk (S n)) = true ->
  -86400 < utc_offset_at clk (S (S n)) < 86400 ->
  same_date (today_at clk n) (today_at clk (S n)) ->
  is_schedule_active s clk n = (Ok true, S n) ->
  let now := today_at clk n in
  let e := endtime_of (today_at clk (S n)) s in
  get_end_date_of_schedule s clk (S n)
  = (Ok (iso_stamp e
         ++ sign_of (utc_offset_at clk (S (S n)))
         ++ digits4 (offset_hundredths (utc_offset_at clk (S (S n)))))%string,
     S (S (S n)))
  /\ (crosses_midnight s = false -> dt_le now e = true)
  /\ (crosses_midnight s = true ->
      dt_le (starttime_of now s) now = true -> dt_le now e = false)
  /\ (crosses_midnight s = true ->
      dt_le (starttime_of now s) now = false -> dt_le now e = true).
Proof.
  intros Hnow Hnext Roff (Dy & Dm & Dd) A now e.
  rewrite is_schedule_active_run in A. injection A as A.
  pose proof (active_answer_valid_times _ _ _ A) as Ht.
  split; [exact (get_end_date_value clk (S n) s Hnext Ht Roff)|].
  assert (E : e = endtime_of now s).
  { subst e now. unfold endtime_of. now rewrite Dy, Dm, Dd. }
  rewrite E. exact (end_time_versus_reading now s Hnow Ht A).
Qed.

Lemma end_time_versus_now_witness :
  get_end_date_of_schedule night_friday
    (frozen (at_time 2024 1 5 23 0 0) 3600) 1%nat
  = (Ok "2024-01-05T02:00:00+0100"%string, 3%nat)
  /\ dt_le (at_time 2024 1 5 23 0 0) (at_time 2024 1 5 2 0 0) = false.
Proof.
  pose proof (end_time_versus_now (frozen (at_time 2024 1 5 23 0 0) 3600)
                0%nat night_friday eq_refl eq_refl (conj eq_refl eq_refl)
                (conj eq_refl (conj eq_refl eq_refl)) eq_refl) as H.
  cbv zeta in H. destruct H as (G & _ & B & _).
  split; [exact G | exact (B eq_refl eq_refl)].
Defined.

(** When midnight passes between the check and the reading from which the
    end date is built, the end date is on the new day: a check at the last
    microsecond of Friday gives an end time on Saturday, after the check. *)
Example end_date_across_midnight :
  let clk := mk_clock (fun k => match k with
                                | O => mk_datetime 2024 1 5 23 59 59 999999
                                | _ => mk_datetime 2024 1 6 0 0 0 5
                                end) (fun _ => 0) in
  is_schedule_active night_friday clk 0%nat = (Ok true, 1%nat)
  /\ get_end_date_of_schedule night_friday clk 1%nat
     = (Ok "2024-01-06T02:00:00+0000"%string, 3%nat)
  /\ dt_le (today_at clk 0%nat) (endtime_of (today_at clk 1%nat) night_friday)
     = true.
Proof.
  cbv zeta. split; [|split]; vm_compute; reflexivity.
Qed.

(** X7. A schedule for which [is_schedule_active] returned an answer, at
    whatever reading, cannot make [get_end_date_of_schedule] raise: read
    at a valid time with an offset of less than a day, the end date is
    computed. So in [run] the end date of the selected schedule never
    fails. *)
Theorem end_date_after_activation
    (clk : Clock) (n k : nat) (s : Schedule) (b : bool) :
  is_schedule_active s clk n = (Ok b, S n) ->
  valid_datetime (today_at clk k) = true ->
  -86400 < utc_offset_at clk (S k) < 86400 ->
  exists d, get_end_date_of_schedule s clk k = (Ok d, S (S k)).
Proof.
  intros A Hnow Roff. rewrite is_schedule_active_run in A.
  injection A as A. apply active_answer_valid_end in A.
  eexists. now apply get_end_date_valid_end.
Qed.

Lemma end_date_after_activation_witness :
  exists d, get_end_date_of_schedule night_friday
              (frozen (at_time 2024 1 5 23 0 0) 3600) 1%nat = (Ok d, 3%nat).
Proof.
  exact (end_date_after_activation (frozen (at_time 2024 1 5 23 0 0) 3600)
           0%nat 1%nat night_friday true eq_refl eq_refl
           (conj eq_refl eq_refl)).
Defined.

(** ** Further properties of the selection *)


Lemma next_active_inv (clk : Clock) (l : list Schedule) :
  forall (n : nat) (r : result (option Schedule)) (m : nat),
  next_active l clk n = (r, m) ->
  match r with
  | Ok (Some s) =>
      exists pre post,
        l = pre ++ s :: post /\ inactive_from clk n pre
        /\ is_schedule_active_at (today_at clk (n + List.length pre)) s = Ok true
        /\ m = S (n + List.length pre)
  | Ok None => inactive_from clk n l /\ m = (n + List.length l)%nat
  | Raise e =>
      exists pre x post,
        l = pre ++ x :: post /\ inactive_from clk n pre
        /\ is_schedule_active_at (today_at clk (n + List.length pre)) x = Raise e
        /\ m = S (n + List.length pre)
  end.
Proof.
  induction l as [|y l IH]; intros n r m H.
  - cbn in H. injection H as <- <-. cbn. split; [exact I | lia].
  - rewrite next_active_cons in H.
    destruct (is_schedule_active_at (today_at clk n) y) as [[|]|e] eqn:Hy.
    + injection H as <- <-. exists [], l. cbn [app List.length inactive_from].
      rewrite Nat.add_0_r. auto.
    + apply IH in H. destruct r as [[s|]|e].
      * destruct H as (pre & post & -> & Hpre & Hs & ->).
        exists (y :: pre), post. cbn [app List.length inactive_from].
        rewrite Nat.add_succ_r. auto.
      * destruct H as [Hl ->]. cbn [List.length inactive_from].
        rewrite Nat.add_succ_r. auto.
      * destruct H as (pre & x & post & -> & Hpre & Hx & ->).
        exists (y :: pre), x, post. cbn [app List.length inactive_from].
        rewrite Nat.add_succ_r. auto.
    + injection H as <- <-. exists [], y, l.
      cbn [app List.length inactive_from]. rewrite Nat.add_0_r. auto.
Qed.

Lemma get_end_date_ok_reads
    (s : Schedule) (clk : Clock) (k m : nat) (d : string) :
  get_end_date_of_schedule s clk k = (Ok d, m) -> m = S (S k).
Proof.
  unfold get_end_date_of_schedule, bind, datetime_today, lift, time_time,
    local_minus_utc, ret.
  destruct (datetime_new _ _ _ _ _); [|discriminate].
  destruct (offset_digits _); [|discriminate].
  now intros [= _ <-].
Qed.

(** X8. Whatever [run] starts SelfControl for is a schedule of the list
    that answered active at its own reading of the clock while every
    schedule before it answered not active, and the end date is the one
    computed from the next two readings; [run] leaves with an exit code
    only when every schedule of the list answered not active, and the code
    is 0. *)
Theorem run_outcomes (clk : Clock) (n : nat) (l : list Schedule) :
  (forall (s : Schedule) (d : string) (m : nat),
     run l clk n = (Ok (StartSelfControl s d), m) ->
     exists pre post,
       l = pre ++ s :: post
       /\ inactive_from clk n pre
       /\ is_schedule_active_at (today_at clk (n + List.length pre)) s = Ok true
       /\ get_end_date_of_schedule s clk (S (n + List.length pre)) = (Ok d, m)
       /\ m = S (S (S (n + List.length pre))))
  /\ (forall (c : Z) (m : nat),
        run l clk n = (Ok (Exit c), m) ->
        c = 0 /\ inactive_from clk n l /\ m = (n + List.length l)%nat).
Proof.
  split.
  - intros s d m H. unfold run, bind at 1 in H.
    destruct (next_active l clk n) as [r k] eqn:N.
    pose proof (next_active_inv clk l n r k N) as I.
    destruct r as [[s'|]|e]; [| discriminate | discriminate].
    destruct I as (pre & post & -> & Hpre & Hs & ->).
    unfold bind in H.
    destruct (get_end_date_of_schedule s' clk (S (n + List.length pre)))
      as [[d'|e] k'] eqn:G; [|discriminate].
    cbn [ret] in H. injection H as <- <- <-.
    exists pre, post. pose proof (get_end_date_ok_reads _ _ _ _ _ G) as ->.
    auto.
  - intros c m H. unfold run, bind at 1 in H.
    destruct (next_active l clk n) as [r k] eqn:N.
    pose proof (next_active_inv clk l n r k N) as I.
    destruct r as [[s'|]|e]; [| | discriminate].
    + unfold bind in H.
      destruct (get_end_date_of_schedule s' clk k) as [[d'|e] k'];
        discriminate.
    + cbn [ret] in H. injection H as <- <-. destruct I as [I ->]. auto.
Qed.

Lemma run_outcomes_witness :
  exists pre post,
    [office_monday; night_friday; night_daily] = pre ++ night_friday :: post
    /\ inactive_from (frozen (at_time 2024 1 5 23 0 0) 3600) 0%nat pre
    /\ is_schedule_active_at
         (today_at (frozen (at_time 2024 1 5 23 0 0) 3600) (0 + List.length pre))
         night_friday = Ok true
    /\ get_end_date_of_schedule night_friday
         (frozen (at_time 2024 1 5 23 0 0) 3600) (S (0 + List.length pre))
       = (Ok "2024-01-05T02:00:00+0100"%string, 4%nat)
    /\ 4%nat = S (S (S (0 + List.length pre))).
Proof.
  exact (proj1 (run_outcomes (frozen (at_time 2024 1 5 23 0 0) 3600) 0%nat
                  [office_monday; night_friday; night_daily])
           night_friday "2024-01-05T02:00:00+0100"%string 4%nat eq_refl).
Defined.



(** X10. The check made after installation, [any] over the active
    schedules, and the selection made by [run] agree when they start from
    the same reading: [any] is true exactly when a schedule is selected,
    they raise the same exception, and they read the clock the same number
    of times. *)
Theorem any_active_agrees (l : list Schedule) (clk : Clock) (n : nat) :
  any_active l clk n
  = (match fst (next_active l clk n) with
     | Ok (Some _) => Ok true
     | Ok None => Ok false
     | Raise e => Raise e
     end, snd (next_active l clk n)).
Proof.
  revert n. induction l as [|x l IH]; intros n; [reflexivity|].
  rewrite next_active_cons. cbn [any_active]. unfold bind at 1.
  rewrite is_schedule_active_run.
  destruct (is_schedule_active_at (today_at clk n) x) as [[|]|e];
    [reflexivity | apply IH | reflexivity].
Qed.

(** ** The start interval entries identify their values *)

Lemma str_int_inj (a b : Z) : str_int a = str_int b -> a = b.
Proof.
  unfold str_int. intros H.
  assert (N : forall z, Z.to_int z <> Decimal.Pos Decimal.Nil
                        /\ Z.to_int z <> Decimal.Neg Decimal.Nil).
  { intros [|p|p]; cbn; split; try discriminate;
      intros [= E]; now apply (DecimalPos.Unsigned.to_uint_nonnil p). }
  apply (f_equal NilZero.int_of_string) in H.
  rewrite !NilZero.isi in H by apply N.
  injection H as H. now apply DecimalZ.to_int_inj.
Qed.

Lemma uint_string_digits (s : string) :
  forall d, NilEmpty.uint_of_string s = Some d -> lacks "<" s = true.
Proof.
  induction s as [|c s IH]; intros d H; [reflexivity|].
  cbn [NilEmpty.uint_of_string] in H.
  destruct (NilEmpty.uint_of_string s) as [d'|]; [|discriminate].
  unfold lacks. cbn [list_ascii_of_string forallb].
  fold (lacks "<" s). rewrite (IH d' eq_refl), andb_true_r.
  apply uint_of_char_spec in H.
  destruct H as [[-> _]|[[-> _]|[[-> _]|[[-> _]|[[-> _]|[[-> _]|[[-> _]
    |[[-> _]|[[-> _]|[-> _]]]]]]]]]]; reflexivity.
Qed.

Lemma str_int_lacks_lt (z : Z) : lacks "<" (str_int z) = true.
Proof.
  assert (U : forall u, u <> Decimal.Nil ->
                        lacks "<" (NilZero.string_of_uint u) = true).
  { intros u Hu. pose proof (NilZero.usu u Hu) as P.
    unfold NilZero.uint_of_string in P.
    destruct (NilZero.string_of_uint u) eqn:E; [discriminate|].
    now apply (uint_string_digits _ u). }
  unfold str_int.
  destruct z as [|p|p]; cbn [Z.to_int NilZero.string_of_int].
  - reflexivity.
  - apply U, DecimalPos.Unsigned.to_uint_nonnil.
  - unfold lacks. cbn [list_ascii_of_string forallb].
    fold (lacks "<" (NilZero.string_of_uint (Pos.to_uint p))).
    now rewrite U by apply DecimalPos.Unsigned.to_uint_nonnil.
Qed.

Lemma split_delim (c : ascii) (a : string) :
  forall (a' r r' : string),
  lacks c a = true -> lacks c a' = true ->
  (a ++ String c r = a' ++ String c r')%string ->
  a = a' /\ r = r'.
Proof.
  unfold lacks.
  induction a as [|x a IH]; intros [|x' a'] r r' Ha Ha' H;
    cbn [append list_ascii_of_string forallb] in *.
  - injection H as H. auto.
  - injection H as <- _. apply andb_prop in Ha'. destruct Ha' as [Hx _].
    rewrite Ascii.eqb_refl in Hx. discriminate.
  - injection H as -> _. apply andb_prop in Ha. destruct Ha as [Hx _].
    rewrite Ascii.eqb_refl in Hx. discriminate.
  - injection H as <- H.
    apply andb_prop in Ha. destruct Ha as [_ Ha].
    apply andb_prop in Ha'. destruct Ha' as [_ Ha'].
    destruct (IH a' r r' Ha Ha' H) as [-> ->]. auto.
Qed.

Lemma startinterval_entry_inj (wd mi h wd' mi' h' : Z) :
  startinterval_entry wd mi h = startinterval_entry wd' mi' h' ->
  wd = wd' /\ mi = mi' /\ h = h'.
Proof.
  intros H. unfold startinterval_entry, nl in H. cbn [append] in H.
  repeat (injection H as H).
  apply split_delim in H; try apply str_int_lacks_lt.
  destruct H as [Hwd H]. repeat (injection H as H).
  apply split_delim in H; try apply str_int_lacks_lt.
  destruct H as [Hmi H]. repeat (injection H as H).
  apply split_delim in H; try apply str_int_lacks_lt.
  destruct H as [Hh _].
  auto using str_int_inj.
Qed.

(** ** Start intervals *)

Lemma startintervals_expand (l : list Schedule) :
  get_launchscript_startintervals l = map entry_of (flat_map expand l).
Proof.
  unfold get_launchscript_startintervals.
  induction l as [|x l IH]; [reflexivity|].
  cbn [flat_map]. rewrite map_app, IH. f_equal.
  unfold expand. rewrite map_map. reflexivity.
Qed.

Lemma until_lt_app (a r : string) :
  lacks "<" a = true ->
  until_lt (a ++ String "<" r) = (a, String "<" r).
Proof.
  unfold lacks. induction a as [|c a IH]; intros H.
  - reflexivity.
  - cbn [list_ascii_of_string forallb] in H.
    apply andb_prop in H. destruct H as [Hc Ha].
    cbn [append until_lt].
    destruct (Ascii.eqb c "<"); [discriminate|].
    now rewrite (IH Ha).
Qed.

Lemma parse_int_str_int (z : Z) : parse_int (str_int z) = Some z.
Proof.
  unfold parse_int, str_int.
  assert (N : Z.to_int z <> Decimal.Pos Decimal.Nil
              /\ Z.to_int z <> Decimal.Neg Decimal.Nil).
  { destruct z as [|p|p]; cbn; split; try discriminate;
      intros [= E]; now apply (DecimalPos.Unsigned.to_uint_nonnil p). }
  rewrite NilZero.isi by apply N. cbn [option_map].
  now rewrite DecimalZ.of_to.
Qed.

Ltac reader_step :=
  repeat (progress
    (cbn;
     repeat match goal with
     | |- context [is_space ?c] =>
         let v := eval vm_compute in (is_space c) in
         change (is_space c) with v
     end)).

Lemma read_entry_text (a b c : string) (wd mi h : Z) :
  lacks "<" a = true -> lacks "<" b = true -> lacks "<" c = true ->
  parse_int a = Some wd -> parse_int b = Some mi -> parse_int c = Some h ->
  read_entry (entry_text a b c) = Some (wd, h, mi).
Proof.
  intros La Lb Lc Pa Pb Pc.
  unfold read_entry, entry_text, nl, key_integer, element.
  reader_step. rewrite (until_lt_app a _ La).
  reader_step. rewrite Pa.
  reader_step. rewrite (until_lt_app b _ Lb).
  reader_step. rewrite Pb.
  reader_step. rewrite (until_lt_app c _ Lc).
  reader_step. rewrite Pc.
  reader_step. reflexivity.
Qed.

Lemma read_startinterval_entry (wd mi h : Z) :
  read_entry (startinterval_entry wd mi h) = Some (wd, h, mi).
Proof.
  exact (read_entry_text (str_int wd) (str_int mi) (str_int h) wd mi h
           (str_int_lacks_lt wd) (str_int_lacks_lt mi) (str_int_lacks_lt h)
           (parse_int_str_int wd) (parse_int_str_int mi) (parse_int_str_int h)).
Qed.

Lemma read_startintervals (l : list Schedule) :
  map read_entry (get_launchscript_startintervals l)
  = map Some (flat_map expand l).
Proof.
  rewrite startintervals_expand, map_map. apply map_ext.
  intros [[wd h] mi]. apply read_startinterval_entry.
Qed.

Lemma startintervals_app (l1 l2 : list Schedule) :
  get_launchscript_startintervals (l1 ++ l2)
  = get_launchscript_startintervals l1 ++ get_launchscript_startintervals l2.
Proof. unfold get_launchscript_startintervals. apply flat_map_app. Qed.

(** C7. Read back from the entries the generator yields, a schedule gives
    one (weekday, start hour, start minute) tuple per weekday it applies
    to, in ascending weekday order: the seven weekdays 1 to 7, each with
    the schedule's start hour and minute, when no weekday is set, the
    single weekday otherwise. For a sequence of schedules the entries
    come schedule after schedule in input order and nothing is removed:
    the entries of a concatenation are the entries of its parts, their
    number is the sum over the schedules, and a schedule listed twice
    yields its entries twice. *)
Theorem startintervals_expansion :
  (forall s : Schedule,
     weekday s = None ->
     map read_entry (get_launchscript_startintervals [s])
     = map (fun wd => Some (wd, start_hour s, start_minute s))
           [1; 2; 3; 4; 5; 6; 7]
     /\ List.length (get_launchscript_startintervals [s]) = 7%nat)
  /\ (forall (s : Schedule) (w : Z),
        weekday s = Some w ->
        map read_entry (get_launchscript_startintervals [s])
        = [Some (w, start_hour s, start_minute s)])
  /\ (forall s : Schedule,
        exists ws : list Z,
          map read_entry (get_launchscript_startintervals [s])
          = map (fun wd => Some (wd, start_hour s, start_minute s)) ws
          /\ StronglySorted Z.lt ws)
  /\ (forall l : list Schedule,
        map read_entry (get_launchscript_startintervals l)
        = map Some (flat_map expand l))
  /\ (forall l1 l2 : list Schedule,
        get_launchscript_startintervals (l1 ++ l2)
        = get_launchscript_startintervals l1
          ++ get_launchscript_startintervals l2)
  /\ (forall l : list Schedule,
        List.length (get_launchscript_startintervals l)
        = list_sum (map (fun s => match weekday s with
                                  | None => 7
                                  | Some _ => 1
                                  end) l)%nat)
  /\ (forall (s : Schedule) (l : list Schedule),
        get_launchscript_startintervals (s :: s :: l)
        = get_launchscript_startintervals [s]
          ++ get_launchscript_startintervals [s]
          ++ get_launchscript_startintervals l).
Proof.
  assert (One : forall s : Schedule,
            map read_entry (get_launchscript_startintervals [s])
            = map (fun wd => Some (wd, start_hour s, start_minute s))
                  (get_schedule_weekdays s)).
  { intros s. rewrite read_startintervals. cbn [flat_map].
    rewrite app_nil_r. unfold expand. now rewrite map_map. }
  split; [|split; [|split; [|split; [|split; [|split]]]]].
  - intros s W. split.
    + rewrite One. unfold get_schedule_weekdays. now rewrite W.
    + unfold get_launchscript_startintervals, get_schedule_weekdays.
      cbn [flat_map]. rewrite W. reflexivity.
  - intros s w W. rewrite One. unfold get_schedule_weekdays. now rewrite W.
  - intros s. exists (get_schedule_weekdays s). split; [apply One|].
    unfold get_schedule_weekdays. destruct (weekday s) as [w|].
    + repeat constructor.
    + repeat (constructor; [|repeat (constructor; try lia)]). constructor.
  - exact read_startintervals.
  - exact startintervals_app.
  - intros l. unfold get_launchscript_startintervals.
    induction l as [|x l IH]; [reflexivity|].
    cbn [flat_map map list_sum]. rewrite length_app, IH, length_map.
    f_equal. unfold get_schedule_weekdays.
    destruct (weekday x); reflexivity.
  - intros s l.
    change (s :: s :: l) with ([s] ++ [s] ++ l).
    now rewrite !startintervals_app.
Qed.

Lemma startintervals_expansion_witness :
  map read_entry (get_launchscript_startintervals [night_daily])
  = [Some (1, 22, 0); Some (2, 22, 0); Some (3, 22, 0); Some (4, 22, 0);
     Some (5, 22, 0); Some (6, 22, 0); Some (7, 22, 0)]
  /\ List.length (get_launchscript_startintervals [night_daily]) = 7%nat
  /\ map read_entry (get_launchscript_startintervals [night_friday])
     = [Some (5, 22, 0)].
Proof.
  split; [|split].
  - exact (proj1 (proj1 startintervals_expansion night_daily eq_refl)).
  - exact (proj2 (proj1 startintervals_expansion night_daily eq_refl)).
  - exact (proj1 (proj2 startintervals_expansion) night_friday 5 eq_refl).
Defined.

Example startintervals_office :
  get_launchscript_startintervals [office_monday]
  = [("<dict>" ++ nl
      ++ "                    <key>Weekday</key>" ++ nl
      ++ "                    <integer>1</integer>" ++ nl
      ++ "                    <key>Minute</key>" ++ nl
      ++ "                    <integer>0</integer>" ++ nl
      ++ "                    <key>Hour</key>" ++ nl
      ++ "                    <integer>9</integer>" ++ nl
      ++ "                </dict>" ++ nl
      ++ "                ")%string].
Proof. reflexivity. Qed.

(** The reader takes the keys in any order and refuses an entry that
    lacks one of them or whose integer is not a number. *)
Example read_entry_samples :
  read_entry "<dict><key>Hour</key><integer>9</integer> <key>Weekday</key><integer>1</integer><key>Minute</key><integer>30</integer></dict>"
  = Some (1, 9, 30)
  /\ read_entry "<dict><key>Hour</key><integer>9</integer><key>Hour</key><integer>1</integer><key>Minute</key><integer>30</integer></dict>"
     = None
  /\ read_entry "<dict><key>Weekday</key><integer>x</integer><key>Hour</key><integer>1</integer><key>Minute</key><integer>30</integer></dict>"
     = None
  /\ read_entry "<dict></dict>" = None.
Proof. repeat split; vm_compute; reflexivity. Qed.

(** X11. An entry of the launch script determines its weekday, minute and
    hour: two entries are the same string only if the three values are the
    same. So the generated entries are free of duplicates exactly when the
    (weekday, hour, minute) values of the schedules are. *)
Theorem startinterval_entries_distinct :
  (forall wd mi h wd' mi' h' : Z,
     startinterval_entry wd mi h = startinterval_entry wd' mi' h' ->
     wd = wd' /\ mi = mi' /\ h = h')
  /\ (forall l : list Schedule,
        NoDup (get_launchscript_startintervals l)
        <-> NoDup (flat_map expand l)).
Proof.
  split; [exact startinterval_entry_inj|].
  intros l. rewrite startintervals_expand. split.
  - apply NoDup_map_inv.
  - apply Finite.Injective_map_NoDup.
    intros [[wd h] mi] [[wd' h'] mi'] E. cbn [entry_of] in E.
    apply startinterval_entry_inj in E. destruct E as (-> & -> & ->).
    reflexivity.
Qed.

Lemma startinterval_entries_distinct_witness :
  NoDup (get_launchscript_startintervals [office_monday; night_friday]).
Proof.
  apply (proj2 (proj2 startinterval_entries_distinct
                  [office_monday; night_friday])).
  cbn. constructor; [|constructor; [|constructor]].
  - intros [H|[]]. discriminate.
  - intros [].
Defined.

(** ** The configuration check *)

Lemma lstrip_head (l : list ascii) (c : ascii) (r : list ascii) :
  lstrip l = c :: r -> is_space c = false.
Proof.
  induction l as [|x l IH]; cbn [lstrip]; [discriminate|].
  destruct (is_space x) eqn:E; [exact IH|].
  intros [= <- _]. exact E.
Qed.

Lemma lstrip_suffix (l : list ascii) : exists p, l = p ++ lstrip l.
Proof.
  induction l as [|x l [p IH]]; [now exists []|].
  cbn [lstrip]. destruct (is_space x).
  - exists (x :: p). cbn. now rewrite <- IH.
  - now exists [].
Qed.

Lemma strip_chars (s : string) :
  list_ascii_of_string (strip s)
  = rev (lstrip (rev (lstrip (list_ascii_of_string s)))).
Proof. unfold strip. apply list_ascii_of_string_of_list_ascii. Qed.

(** A stripped line neither begins nor ends with whitespace. *)
Lemma strip_first (s : string) (c : ascii) (r : list ascii) :
  list_ascii_of_string (strip s) = c :: r -> is_space c = false.
Proof.
  rewrite strip_chars. intros H.
  destruct (lstrip_suffix (rev (lstrip (list_ascii_of_string s)))) as [p Hp].
  apply (f_equal (@rev ascii)) in Hp.
  rewrite rev_involutive, rev_app_distr, H in Hp.
  cbn [app] in Hp. now apply lstrip_head in Hp.
Qed.

Lemma strip_last (s : string) (c : ascii) (r : list ascii) :
  list_ascii_of_string (strip s) = r ++ [c] -> is_space c = false.
Proof.
  rewrite strip_chars. intros H.
  apply (f_equal (@rev ascii)) in H.
  rewrite rev_involutive, rev_app_distr in H. cbn [rev app] in H.
  now apply lstrip_head in H.
Qed.

Lemma known_username (env : Env) (u : string) :
  existsb (String.eqb u) (get_osx_usernames env) = true
  <-> In u (get_osx_usernames env).
Proof.
  rewrite existsb_exists. split.
  - intros (x & Hx & E). apply String.eqb_eq in E. now subst.
  - intros H. exists u. split; [exact H | apply String.eqb_refl].
Qed.

(** X12. [check_config] accepts a configuration exactly when the username
    is given and is one of the stripped lines of the dscl output, the
    SelfControl path is given and exists, and the block schedules are
    given and not empty; it then warns exactly when "host-blacklist" is
    absent or null. In every other case it exits with an error. *)
Theorem check_config_accepts (env : Env) (config : Config) (w : bool) :
  check_config env config = ConfigOk w
  <-> (exists u p l,
         cfg_username config = Some u
         /\ In u (get_osx_usernames env)
         /\ cfg_selfcontrol_path config = Some p
         /\ path_exists env p = true
         /\ cfg_block_schedules config = Some l
         /\ l <> []
         /\ w = warns config).
Proof.
  unfold check_config, warns. split.
  - destruct (cfg_username config) as [u|]; [|discriminate].
    destruct (existsb (String.eqb u) (get_osx_usernames env)) eqn:U;
      cbn [negb]; [|discriminate].
    destruct (cfg_selfcontrol_path config) as [p|]; [|discriminate].
    destruct (path_exists env p) eqn:P; cbn [negb]; [|discriminate].
    destruct (cfg_block_schedules config) as [l|]; [|discriminate].
    destruct l as [|x l]; cbn [List.length Nat.eqb]; [discriminate|].
    intros [= <-]. exists u, p, (x :: l).
    apply known_username in U. repeat split; try assumption. discriminate.
  - intros (u & p & l & -> & U & -> & P & -> & L & ->).
    apply known_username in U. rewrite U, P. cbn [negb].
    destruct l as [|x l]; [contradiction|]. reflexivity.
Qed.

(** X13. A configured username that begins or ends with whitespace is
    rejected as unknown, whatever the dscl output is: the names it is
    compared with are stripped lines. *)
Theorem username_with_outer_whitespace_rejected
    (env : Env) (config : Config) (u : string) (c : ascii) (r : list ascii) :
  cfg_username config = Some u ->
  is_space c = true ->
  list_ascii_of_string u = c :: r \/ list_ascii_of_string u = r ++ [c] ->
  check_config env config = ExitWithError (UnknownUsername u).
Proof.
  intros Hu Hc Hends. unfold check_config. rewrite Hu.
  destruct (existsb (String.eqb u) (get_osx_usernames env)) eqn:U;
    [|reflexivity].
  exfalso. apply known_username in U. unfold get_osx_usernames in U.
  apply in_map_iff in U. destruct U as (x & <- & _).
  destruct Hends as [H|H];
    [apply strip_first in H | apply strip_last in H]; congruence.
Qed.

Lemma username_with_outer_whitespace_rejected_witness :
  check_config (mk_env "alice "%string (fun _ => true))
    (mk_config (Some "alice "%string) (Some "/Applications/SelfControl.app"%string)
       (Some [office_monday]) None)
  = ExitWithError (UnknownUsername "alice "%string).
Proof.
  exact (username_with_outer_whitespace_rejected
           (mk_env "alice "%string (fun _ => true))
           (mk_config (Some "alice "%string)
              (Some "/Applications/SelfControl.app"%string)
              (Some [office_monday]) None)
           "alice "%string " "%char (list_ascii_of_string "alice"%string)
           eq_refl eq_refl (or_intror eq_refl)).
Defined.

Lemma check_config_accepts_witness :
  check_config (mk_env "alice"%string (fun _ => true))
    (mk_config (Some "alice"%string) (Some "/Applications/SelfControl.app"%string)
       (Some [office_monday]) None)
  = ConfigOk true.
Proof.
  apply (proj2 (check_config_accepts _ _ true)).
  exists "alice"%string, "/Applications/SelfControl.app"%string, [office_monday].
  repeat split; [now left | discriminate].
Defined.

Lemma check_config_warned (env : Env) (config : Config) (w : bool) :
  check_config env config = ConfigOk w -> w = warns config.
Proof.
  unfold check_config, warns.
  destruct (cfg_username config) as [u|]; [|discriminate].
  destruct (negb _); [discriminate|].
  destruct (cfg_selfcontrol_path config) as [p|]; [|discriminate].
  destruct (negb _); [discriminate|].
  destruct (cfg_block_schedules config) as [l|]; [|discriminate].
  destruct (Nat.eqb _ _); [discriminate|].
  now intros [= <-].
Qed.

(** Replacing the schedules leaves the call of SelfControl as it was. *)
Lemma check_if_running_with_schedules
    (sys : System) (config : Config) (l : list Schedule) :
  check_if_running sys (with_schedules config l) = check_if_running sys config.
Proof. reflexivity. Qed.

(** X14. [check_config] does not look into the schedules: with any
    non-empty list of schedules in place of another its verdict is the
    same. A configuration it accepts may therefore hold an hour or minute
    out of range; [run] on it, with SelfControl found not running, raises
    at the first check: an OverflowError when the hour or minute of the
    time out of range does not fit a C int, a ValueError otherwise. *)
Theorem check_config_ignores_schedule_fields (env : Env) (config : Config) :
  (forall l l' : list Schedule,
     l <> [] -> l' <> [] ->
     check_config env (with_schedules config l)
     = check_config env (with_schedules config l'))
  /\ (forall (l : list Schedule) (x : Schedule) (rest : list Schedule)
             (w : bool) (sys : System) (dir : string) (clk : Clock) (n : nat),
        l <> [] ->
        check_config env (with_schedules config l) = ConfigOk w ->
        check_if_running sys config = inr false ->
        valid_times x = false ->
        valid_datetime (today_at clk n) = true ->
        check_config env (with_schedules config (x :: rest)) = ConfigOk w
        /\ run_with_config sys dir (with_schedules config (x :: rest)) clk n
           = (Raise (schedule_exn x), S n)).
Proof.
  assert (A : forall l l' : list Schedule,
            l <> [] -> l' <> [] ->
            check_config env (with_schedules config l)
            = check_config env (with_schedules config l')).
  { intros [|a l] [|a' l'] H H'; try contradiction. reflexivity. }
  split; [exact A|].
  intros l x rest w sys dir clk n L C R V Hnow. split.
  - rewrite <- C. apply A; [discriminate | exact L].
  - unfold run_with_config.
    rewrite check_if_running_with_schedules, R.
    unfold with_schedules. cbn [cfg_block_schedules]. unfold bind at 1.
    rewrite next_active_cons.
    now rewrite (is_schedule_active_at_invalid _ x Hnow V).
Qed.

Lemma check_config_ignores_schedule_fields_witness :
  check_config (mk_env "alice"%string (fun _ => true))
    (with_schedules
       (mk_config (Some "alice"%string) (Some "/A.app"%string) None None)
       [mk_schedule 25 0 2 0 None false])
  = ConfigOk true
  /\ run_with_config
       (mk_system (fun _ => Some 501) (fun _ _ => Matched false)) "/etc"%string
       (with_schedules
          (mk_config (Some "alice"%string) (Some "/A.app"%string) None None)
          [mk_schedule 25 0 2 0 None false])
       (frozen (at_time 2024 1 1 10 0 0) 0) 0%nat
     = (Raise ValueError, 1%nat).
Proof.
  exact (proj2 (check_config_ignores_schedule_fields
                  (mk_env "alice"%string (fun _ => true))
                  (mk_config (Some "alice"%string) (Some "/A.app"%string)
                     None None))
           [office_monday] (mk_schedule 25 0 2 0 None false) [] true
           (mk_system (fun _ => Some 501) (fun _ _ => Matched false))
           "/etc"%string
           (frozen (at_time 2024 1 1 10 0 0) 0) 0%nat
           ltac:(discriminate) eq_refl eq_refl eq_refl eq_refl).
Defined.

(** ** From the configuration to the call of SelfControl *)



(** A null "host-blacklist" with an active schedule: the end date is
    computed, then [plistlib.dump] raises a TypeError and SelfControl is
    not called. *)
Example null_host_blacklist :
  run_with_config
    (mk_system (fun _ => Some 501) (fun _ _ => Matched false)) "/etc"%string
    (mk_config (Some "alice"%string) (Some "/A.app"%string)
       (Some [office_monday; night_friday]) (Some None))
    (frozen (at_time 2024 1 5 23 0 0) 3600) 0%nat
  = (Ok UncaughtTypeError, 4%nat).
Proof. vm_compute. reflexivity. Qed.

(** Without "username" or "selfcontrol-path" the call with [--is-running]
    cannot be built: [run] ends with a KeyError before any schedule is
    looked at. *)
Example missing_call_keys :
  run_with_config
    (mk_system (fun _ => Some 501) (fun _ _ => Matched false)) "/etc"%string
    (mk_config None None (Some [office_monday; night_friday])
       (Some (Some ["example.com"%string])))
    (frozen (at_time 2024 1 5 23 0 0) 3600) 0%nat
  = (Ok (UncaughtKeyError "username"), 0%nat)
  /\ run_with_config
       (mk_system (fun _ => Some 501) (fun _ _ => Matched false)) "/etc"%string
       (mk_config (Some "alice"%string) None
          (Some [office_monday; night_friday])
          (Some (Some ["example.com"%string])))
       (frozen (at_time 2024 1 5 23 0 0) 3600) 0%nat
     = (Ok (UncaughtKeyError "selfcontrol-path"), 0%nat).
Proof. split; reflexivity. Qed.

(** X16. A configuration without the "host-blacklist" key passes
    [check_config] with a warning only, but [run], with SelfControl found
    not running, needs the key once a schedule is active: it then ends
    with an uncaught KeyError, after the end date was computed and before
    anything is written, while with no schedule active it exits with code
    0 as usual. *)
Theorem missing_host_blacklist
    (env : Env) (sys : System) (dir : string) (config : Config)
    (l : list Schedule) (clk : Clock) (n : nat) :
  cfg_host_blacklist config = None ->
  cfg_block_schedules config = Some l ->
  check_if_running sys config = inr false ->
  (forall w, check_config env config = ConfigOk w -> w = true)
  /\ (inactive_from clk n l ->
      run_with_config sys dir config clk n
      = (Ok (SysExit 0), (n + List.length l)%nat))
  /\ (forall (pre : list Schedule) (s : Schedule) (post : list Schedule),
        l = pre ++ s :: post ->
        inactive_from clk n pre ->
        is_schedule_active_at (today_at clk (n + List.length pre)) s = Ok true ->
        valid_datetime (today_at clk (S (n + List.length pre))) = true ->
        -86400 < utc_offset_at clk (S (S (n + List.length pre))) < 86400 ->
        run_with_config sys dir config clk n
        = (Ok (UncaughtKeyError "host-blacklist"),
           S (S (S (n + List.length pre))))).
Proof.
  intros Hh Hl R. split; [|split].
  - intros w C. apply check_config_warned in C. subst w.
    unfold warns. now rewrite Hh.
  - intros I. unfold run_with_config. rewrite R, Hl. unfold bind.
    now rewrite (next_active_none clk l n I).
  - intros pre s post -> Hpre Hs Hnow Roff.
    unfold run_with_config. rewrite R, Hl. unfold bind at 1.
    rewrite (next_active_skips clk pre n s post Hpre Hs). unfold bind.
    rewrite (get_end_date_valid_end clk _ s Hnow
               (active_answer_valid_end _ _ _ Hs) Roff).
    unfold update_blocklist. rewrite Hh. reflexivity.
Qed.

Lemma missing_host_blacklist_witness :
  run_with_config
    (mk_system (fun _ => Some 501) (fun _ _ => Matched false)) "/etc"%string
    (mk_config (Some "alice"%string) (Some "/A.app"%string)
       (Some [office_monday; night_friday]) None)
    (frozen (at_time 2024 1 5 23 0 0) 3600) 0%nat
  = (Ok (UncaughtKeyError "host-blacklist"%string), 4%nat).
Proof.
  exact (proj2 (proj2 (missing_host_blacklist (mk_env "alice"%string (fun _ => true))
                         (mk_system (fun _ => Some 501) (fun _ _ => Matched false))
                         "/etc"%string
                         (mk_config (Some "alice"%string) (Some "/A.app"%string)
                            (Some [office_monday; night_friday]) None)
                         [office_monday; night_friday]
                         (frozen (at_time 2024 1 5 23 0 0) 3600) 0%nat
                         eq_refl eq_refl eq_refl))
           [office_monday] night_friday [] eq_refl (conj eq_refl I) eq_refl
           eq_refl (conj eq_refl eq_refl)).
Defined.
